(** * sliceplots: [Plot2D] (src/sliceplots/two_dimensional.py)

    A shallow embedding of the constructor of [Plot2D] and of [draw_fig],
    with the numpy operations they call (minimum and maximum reductions,
    basic slicing, indexing with negative wrap-around) and the calls made on
    the matplotlib figure recorded as data.  matplotlib itself is a
    parameter: each of its calls that receives a value of the caller may
    raise, and the figure is built as far as the calls return.

    Array elements and coordinates are exact rationals ([Q]); rounding of
    floating-point numbers is outside this model. *)

From Stdlib Require Import QArith Qabs ZArith Lia Lqa List.
From stdpp Require Import gmap strings list fin_maps pretty.

Local Open Scope Z_scope.
Local Open Scope nat_scope.

(** ** Exceptions *)

(** An exception: its class and its message, [str(e)].  The classes are
    those of the operations the constructor performs itself and those that
    matplotlib raises on a value it does not accept. *)
Inductive exn : Type :=
  | ValueError (msg : string)
  | IndexError (msg : string)
  | KeyError (msg : string)
  | TypeError (msg : string)
  | AttributeError (msg : string)
  | OtherError (cls msg : string).

Inductive result (A : Type) : Type :=
  | Ok (a : A)
  | Raise (e : exn).
Arguments Ok {A} a.
Arguments Raise {A} e.

#[global] Instance result_ret : MRet result := fun A a => Ok a.
#[global] Instance result_bind : MBind result := fun A B f r =>
  match r with
  | Ok a => f a
  | Raise e => Raise e
  end.

(** ** numpy *)

Module np.

(** A two-dimensional array, row by row. *)
Definition ndarray2 : Type := list (list Q).

(** [shape2 r c d]: [d] has [r] rows of [c] elements each. *)
Definition shape2 (r c : nat) (d : ndarray2) : Prop :=
  length d = r /\ Forall (fun row => length row = c) d.

Definition lesser (m x : Q) : Q :=
  match (x ?= m)%Q with Lt => x | _ => m end.

Definition greater (m x : Q) : Q :=
  match (m ?= x)%Q with Lt => x | _ => m end.

(** The message of a reduction that has no identity on an array without
    elements. *)
Definition zero_size (op : string) : string :=
  "zero-size array to reduction operation " +:+ op
  +:+ " which has no identity".

(** [np.min], [np.amin]: the reduction has no identity, an empty array
    raises [ValueError]. *)
Definition min (a : list Q) : result Q :=
  match a with
  | [] => Raise (ValueError (zero_size "minimum"))
  | x :: a' => Ok (fold_left lesser a' x)
  end.

Definition max (a : list Q) : result Q :=
  match a with
  | [] => Raise (ValueError (zero_size "maximum"))
  | x :: a' => Ok (fold_left greater a' x)
  end.

(** On a two-dimensional array the reduction runs over all elements. *)
Definition amin (d : ndarray2) : result Q := min (concat d).
Definition amax (d : ndarray2) : result Q := max (concat d).

(** [a[i:j]] for indices [0 <= i], [0 <= j]: the elements at positions
    [i], ..., [j - 1] that exist; empty when [j <= i]. *)
Definition slice {A : Type} (i j : nat) (a : list A) : list A :=
  take (j - i) (drop i a).

(** [d[r0:r1, c0:c1]] *)
Definition slice2 (r0 r1 c0 c1 : nat) (d : ndarray2) : ndarray2 :=
  slice c0 c1 <$> slice r0 r1 d.

(** The message of an index [i] outside an axis of [size] elements. *)
Definition out_of_bounds (i : Z) (ax size : nat) : string :=
  "index " +:+ pretty i +:+ " is out of bounds for axis " +:+ pretty ax
  +:+ " with size " +:+ pretty size.

(** Indexing along the axis [ax] with a Python integer [i]: a negative
    index counts from the end, an index outside [-len, len) raises
    [IndexError]. *)
Definition item {A : Type} (ax : nat) (a : list A) (i : Z) : result A :=
  let n := Z.of_nat (length a) in
  let k := (if i <? 0 then i + n else i)%Z in
  if (k <? 0)%Z then Raise (IndexError (out_of_bounds i ax (length a)))
  else match a !! Z.to_nat k with
       | Some x => Ok x
       | None => Raise (IndexError (out_of_bounds i ax (length a)))
       end.

(** [a[i]] *)
Definition getitem {A : Type} (a : list A) (i : Z) : result A := item 0 a i.

(** [d[i, :]] *)
Definition row (d : ndarray2) (i : Z) : result (list Q) := getitem d i.

(** [d[:, j]]: the index runs along the second axis, in every row. *)
Definition col (d : ndarray2) (j : Z) : result (list Q) :=
  mapM (fun r => item 1 r j) d.

End np.

(** ** [sliceplots.util] *)

(** [scan v a i bi bd]: index of the first element of [a] (numbered from
    [i]) whose distance to [v] is strictly below [bd], and below every
    earlier such element; [bi] when there is none. *)
Fixpoint scan (v : Q) (a : list Q) (i bi : nat) (bd : Q) : nat :=
  match a with
  | [] => bi
  | x :: a' =>
      let d := Qabs (x - v) in
      match (d ?= bd)%Q with
      | Lt => scan v a' (S i) i d
      | _ => scan v a' (S i) bi bd
      end
  end.

(** Modelled from the spec: [idx_from_val] of sliceplots/util.py, which is
    imported by two_dimensional.py and is not among the sources.  Spec 4.1:
    the index [i] minimizing [|axis[i] - value|]; the axis must be non-empty;
    of two equidistant indices the lower one wins.  An empty axis, outside
    the contract, is taken to raise the [ValueError] of numpy's [argmin]. *)
Definition idx_from_val (axis : list Q) (value : Q) : result nat :=
  match axis with
  | [] => Raise (ValueError "attempt to get argmin of an empty sequence")
  | x :: a' => Ok (scan value a' 1 0 (Qabs (x - value)))
  end.

(** ** Options and attributes *)

(** A value in a dictionary of line-style options. *)
Inductive pyval : Type :=
  | Str (s : string)
  | Num (q : Q).

(** The keyword arguments the class reads, one optional field per key
    ([None]: the key is absent, so that [kwargs.get] yields its default). *)
Record kwargs : Type := {
  kw_extent : option (Q * Q * Q * Q);
  kw_vmin : option Q;
  kw_vmax : option Q;
  kw_hslice_val : option Q;
  kw_vslice_val : option Q;
  kw_hslice_opts : option (gmap string pyval);
  kw_vslice_opts : option (gmap string pyval);
  kw_cbar : option bool;
  kw_norm : option string;
  kw_text : option string;
  kw_figsize : option (Q * Q);
  kw_cmap : option string
}.

(** [kwargs.get(key, default)] *)
Definition get {A : Type} (o : option A) (default : A) : A :=
  match o with
  | Some a => a
  | None => default
  end.

Record labels : Type := { lx : string; ly : string; lz : string }.

(** The attributes assigned by [__init__] before it calls [draw_fig]. *)
Record Plot2D : Type := {
  extent : Q * Q * Q * Q;
  data : np.ndarray2;
  min_data : Q;
  max_data : Q;
  vmin : Q;
  vmax : Q;
  h_axis : list Q;
  v_axis : list Q;
  label : labels;
  cbar : bool;
  norm : option string;
  hslice_val : option Q;
  vslice_val : option Q;
  hslice_idx : option nat;
  vslice_idx : option nat;
  text : string;
  figsize : Q * Q
}.

(** [None if val is None else idx_from_val(axis, val)] (lines 85-90) *)
Definition slice_idx (axis : list Q) (val : option Q) : result (option nat) :=
  match val with
  | None => Ok None
  | Some v => i ← idx_from_val axis v; Ok (Some i)
  end.

(** Lines 58-64: the extent and the four indices it resolves to.  The
    default of [kwargs.get("extent", ...)] is evaluated whether or not the
    key is present. *)
Definition crop_window (h_axis0 v_axis0 : list Q) (kw : kwargs)
    : result (Q * Q * Q * Q * (nat * nat * nat * nat)) :=
  hmin ← np.min h_axis0;
  hmax ← np.max h_axis0;
  vmin0 ← np.min v_axis0;
  vmax0 ← np.max v_axis0;
  let ext := get (kw_extent kw) (hmin, hmax, vmin0, vmax0) in
  let '(xmin, xmax, ymin, ymax) := ext in
  xmin_idx ← idx_from_val h_axis0 xmin;
  xmax_idx ← idx_from_val h_axis0 xmax;
  ymin_idx ← idx_from_val v_axis0 ymin;
  ymax_idx ← idx_from_val v_axis0 ymax;
  Ok (ext, (xmin_idx, xmax_idx, ymin_idx, ymax_idx)).

(** Lines 58-95 of [__init__]: the attributes. *)
Definition init_attrs (arr2d : np.ndarray2) (h_axis0 v_axis0 : list Q)
    (xlabel ylabel zlabel : string) (kw : kwargs) : result Plot2D :=
  '(ext, (xmin_idx, xmax_idx, ymin_idx, ymax_idx)) ← crop_window h_axis0 v_axis0 kw;
  let d := np.slice2 ymin_idx ymax_idx xmin_idx xmax_idx arr2d in
  mn ← np.amin d;
  mx ← np.amax d;
  let h := np.slice xmin_idx xmax_idx h_axis0 in
  let v := np.slice ymin_idx ymax_idx v_axis0 in
  hi ← slice_idx v (kw_hslice_val kw);
  vi ← slice_idx h (kw_vslice_val kw);
  Ok {| extent := ext;
        data := d;
        min_data := mn;
        max_data := mx;
        vmin := get (kw_vmin kw) mn;
        vmax := get (kw_vmax kw) mx;
        h_axis := h;
        v_axis := v;
        label := {| lx := xlabel; ly := ylabel; lz := zlabel |};
        cbar := get (kw_cbar kw) true;
        norm := kw_norm kw;
        hslice_val := kw_hslice_val kw;
        vslice_val := kw_vslice_val kw;
        hslice_idx := hi;
        vslice_idx := vi;
        text := get (kw_text kw) "";
        figsize := get (kw_figsize kw) (8, 8)%Q |}.

(** ** The matplotlib figure *)

(** What [imshow] is called with. *)
Record Image : Type := {
  im_data : np.ndarray2;
  im_origin : string;
  im_extent : Q * Q * Q * Q;
  im_aspect : string;
  im_norm : option string;
  im_interpolation : string;
  im_cmap : string;
  im_vmin : Q;
  im_vmax : Q
}.

(** What is drawn on an axes, one constructor per matplotlib call. *)
Inductive artist : Type :=
  | axhline (y : Q) (opts : gmap string pyval)
  | axvline (x : Q) (opts : gmap string pyval)
  | annotate (value : Q) (xy : Q * Q) (color : pyval) (rotation : option string)
  | axes_text (x y : Q) (s : string) (color : string)
  | plot (xs ys : list Q) (opts : gmap string pyval).

Inductive axes_name : Type := Ax0 | Axh | Axv.

Record Axes : Type := {
  cell : nat * nat;
  sharex : option axes_name;
  sharey : option axes_name;
  image : option Image;
  xlabel : string;
  ylabel : string;
  artists : list artist;
  xlim : option (Q * Q);
  ylim : option (Q * Q);
  xmargin : option Q;
  ymargin : option Q;
  xaxis_visible : bool;
  yaxis_visible : bool;
  hidden_spines : list string
}.

Record GridSpec : Type := {
  nrows : nat;
  ncols : nat;
  height_ratios : list Z;
  width_ratios : list Z
}.

(** The inset colorbar of lines 280-297. *)
Record Colorbar : Type := {
  cb_width : string;
  cb_height : string;
  cb_loc : Z;
  cb_orientation : string;
  cb_tick_color : string;
  cb_ticklabel_color : string
}.

(** The figure once [draw_fig] has returned: [self.fig] with its grid,
    [self.im], [self.ax0], [self.axh], [self.axv] and the colorbar. *)
Record Figure : Type := {
  gs : GridSpec;
  im : Image;
  ax0 : Axes;
  axh : option Axes;
  axv : option Axes;
  wspace : option Q;
  hspace : option Q;
  inset_colorbar : option Colorbar
}.

(** [fig.add_subplot(gs[r, c], sharex=..., sharey=...)] *)
Definition add_subplot (rc : nat * nat) (sx sy : option axes_name) : Axes :=
  {| cell := rc; sharex := sx; sharey := sy; image := None;
     xlabel := ""; ylabel := ""; artists := []; xlim := None; ylim := None;
     xmargin := None; ymargin := None;
     xaxis_visible := true; yaxis_visible := true; hidden_spines := [] |}.

Definition set_image (i : Image) (ax : Axes) : Axes :=
  {| cell := cell ax; sharex := sharex ax; sharey := sharey ax;
     image := Some i;
     xlabel := xlabel ax; ylabel := ylabel ax; artists := artists ax;
     xlim := xlim ax; ylim := ylim ax;
     xmargin := xmargin ax; ymargin := ymargin ax;
     xaxis_visible := xaxis_visible ax; yaxis_visible := yaxis_visible ax;
     hidden_spines := hidden_spines ax |}.

Definition set_xlabel (s : string) (ax : Axes) : Axes :=
  {| cell := cell ax; sharex := sharex ax; sharey := sharey ax;
     image := image ax;
     xlabel := s; ylabel := ylabel ax; artists := artists ax;
     xlim := xlim ax; ylim := ylim ax;
     xmargin := xmargin ax; ymargin := ymargin ax;
     xaxis_visible := xaxis_visible ax; yaxis_visible := yaxis_visible ax;
     hidden_spines := hidden_spines ax |}.

Definition set_ylabel (s : string) (ax : Axes) : Axes :=
  {| cell := cell ax; sharex := sharex ax; sharey := sharey ax;
     image := image ax;
     xlabel := xlabel ax; ylabel := s; artists := artists ax;
     xlim := xlim ax; ylim := ylim ax;
     xmargin := xmargin ax; ymargin := ymargin ax;
     xaxis_visible := xaxis_visible ax; yaxis_visible := yaxis_visible ax;
     hidden_spines := hidden_spines ax |}.

(** Any drawing call: the artist is appended to those of the axes. *)
Definition draw (a : artist) (ax : Axes) : Axes :=
  {| cell := cell ax; sharex := sharex ax; sharey := sharey ax;
     image := image ax;
     xlabel := xlabel ax; ylabel := ylabel ax; artists := artists ax ++ [a];
     xlim := xlim ax; ylim := ylim ax;
     xmargin := xmargin ax; ymargin := ymargin ax;
     xaxis_visible := xaxis_visible ax; yaxis_visible := yaxis_visible ax;
     hidden_spines := hidden_spines ax |}.

Definition set_xlim (lo hi : Q) (ax : Axes) : Axes :=
  {| cell := cell ax; sharex := sharex ax; sharey := sharey ax;
     image := image ax;
     xlabel := xlabel ax; ylabel := ylabel ax; artists := artists ax;
     xlim := Some (lo, hi); ylim := ylim ax;
     xmargin := xmargin ax; ymargin := ymargin ax;
     xaxis_visible := xaxis_visible ax; yaxis_visible := yaxis_visible ax;
     hidden_spines := hidden_spines ax |}.

Definition set_ylim (lo hi : Q) (ax : Axes) : Axes :=
  {| cell := cell ax; sharex := sharex ax; sharey := sharey ax;
     image := image ax;
     xlabel := xlabel ax; ylabel := ylabel ax; artists := artists ax;
     xlim := xlim ax; ylim := Some (lo, hi);
     xmargin := xmargin ax; ymargin := ymargin ax;
     xaxis_visible := xaxis_visible ax; yaxis_visible := yaxis_visible ax;
     hidden_spines := hidden_spines ax |}.

Definition set_xmargin (m : Q) (ax : Axes) : Axes :=
  {| cell := cell ax; sharex := sharex ax; sharey := sharey ax;
     image := image ax;
     xlabel := xlabel ax; ylabel := ylabel ax; artists := artists ax;
     xlim := xlim ax; ylim := ylim ax;
     xmargin := Some m; ymargin := ymargin ax;
     xaxis_visible := xaxis_visible ax; yaxis_visible := yaxis_visible ax;
     hidden_spines := hidden_spines ax |}.

Definition set_ymargin (m : Q) (ax : Axes) : Axes :=
  {| cell := cell ax; sharex := sharex ax; sharey := sharey ax;
     image := image ax;
     xlabel := xlabel ax; ylabel := ylabel ax; artists := artists ax;
     xlim := xlim ax; ylim := ylim ax;
     xmargin := xmargin ax; ymargin := Some m;
     xaxis_visible := xaxis_visible ax; yaxis_visible := yaxis_visible ax;
     hidden_spines := hidden_spines ax |}.

(** [ax.xaxis.set_visible(False)] *)
Definition hide_xaxis (ax : Axes) : Axes :=
  {| cell := cell ax; sharex := sharex ax; sharey := sharey ax;
     image := image ax;
     xlabel := xlabel ax; ylabel := ylabel ax; artists := artists ax;
     xlim := xlim ax; ylim := ylim ax;
     xmargin := xmargin ax; ymargin := ymargin ax;
     xaxis_visible := false; yaxis_visible := yaxis_visible ax;
     hidden_spines := hidden_spines ax |}.

(** [ax.yaxis.set_visible(False)] *)
Definition hide_yaxis (ax : Axes) : Axes :=
  {| cell := cell ax; sharex := sharex ax; sharey := sharey ax;
     image := image ax;
     xlabel := xlabel ax; ylabel := ylabel ax; artists := artists ax;
     xlim := xlim ax; ylim := ylim ax;
     xmargin := xmargin ax; ymargin := ymargin ax;
     xaxis_visible := xaxis_visible ax; yaxis_visible := false;
     hidden_spines := hidden_spines ax |}.

(** [for sp in sps: ax.spines[sp].set_visible(False)] *)
Definition hide_spines (sps : list string) (ax : Axes) : Axes :=
  {| cell := cell ax; sharex := sharex ax; sharey := sharey ax;
     image := image ax;
     xlabel := xlabel ax; ylabel := ylabel ax; artists := artists ax;
     xlim := xlim ax; ylim := ylim ax;
     xmargin := xmargin ax; ymargin := ymargin ax;
     xaxis_visible := xaxis_visible ax; yaxis_visible := yaxis_visible ax;
     hidden_spines := hidden_spines ax ++ sps |}.

(** ** matplotlib *)

(** The calls of matplotlib that receive a value of the caller of [Plot2D]:
    the figure size, the image with its color map, norm and bounds, the
    labels, the lines, annotations, texts and curves with their options, the
    limits.  [GridSpec], [add_subplot], [set_xmargin], [set_visible],
    [subplots_adjust], [inset_axes], [tick_params], [getp] and [setp] are
    called with literals of the source only and are not among them. *)
Inductive mpl_call : Type :=
  | call_Figure (figsize : Q * Q)
  | call_FigureCanvas (figsize : Q * Q)
  | call_imshow (i : Image)
  | call_set_xlabel (on : axes_name) (s : string)
  | call_set_ylabel (on : axes_name) (s : string)
  | call_draw (on : axes_name) (a : artist)
  | call_set_xlim (on : axes_name) (lo hi : Q)
  | call_set_ylim (on : axes_name) (lo hi : Q)
  | call_colorbar (i : Image).

(** The matplotlib in use: the exception with which it answers a call, if
    any.  Nothing is assumed about which calls it accepts. *)
Class matplotlib : Type := mpl_raises : mpl_call -> option exn.

Section Drawing.

Context {mpl : matplotlib}.

(** A call is made: it raises, or returns. *)
Definition call (c : mpl_call) : result unit :=
  match mpl_raises c with
  | Some e => Raise e
  | None => Ok tt
  end.

(** [ax.imshow(...)] *)
Definition ax_imshow (i : Image) (ax : Axes) : result Axes :=
  call (call_imshow i);; Ok (set_image i ax).

(** [ax.set_xlabel(s)], [ax.set_ylabel(s)] *)
Definition ax_set_xlabel (on : axes_name) (s : string) (ax : Axes)
    : result Axes :=
  call (call_set_xlabel on s);; Ok (set_xlabel s ax).

Definition ax_set_ylabel (on : axes_name) (s : string) (ax : Axes)
    : result Axes :=
  call (call_set_ylabel on s);; Ok (set_ylabel s ax).

(** [ax.axhline], [ax.axvline], [ax.annotate], [ax.text]: the artist is
    drawn when matplotlib accepts it. *)
Definition ax_draw (on : axes_name) (a : artist) (ax : Axes) : result Axes :=
  call (call_draw on a);; Ok (draw a ax).

(** [ax.set_xlim(lo, hi)], [ax.set_ylim(lo, hi)] *)
Definition ax_set_xlim (on : axes_name) (lo hi : Q) (ax : Axes) : result Axes :=
  call (call_set_xlim on lo hi);; Ok (set_xlim lo hi ax).

Definition ax_set_ylim (on : axes_name) (lo hi : Q) (ax : Axes) : result Axes :=
  call (call_set_ylim on lo hi);; Ok (set_ylim lo hi ax).

(** The message of [plot] for sequences of different lengths. *)
Definition shape_mismatch (n m : nat) : string :=
  "x and y must have same first dimension, but have shapes ("
  +:+ pretty n +:+ ",) and (" +:+ pretty m +:+ ",)".

(** [ax.plot(xs, ys, **opts)]; matplotlib raises [ValueError] when the two
    sequences differ in length, before it looks at the options. *)
Definition ax_plot (on : axes_name) (xs ys : list Q) (opts : gmap string pyval)
    (ax : Axes) : result Axes :=
  if decide (length xs = length ys) then ax_draw on (plot xs ys opts) ax
  else Raise (ValueError (shape_mismatch (length xs) (length ys))).

(** ** [draw_fig] *)

(** [d[key]] on a dictionary *)
Definition dict_getitem (d : gmap string pyval) (key : string) : result pyval :=
  match d !! key with
  | Some v => Ok v
  | None => Raise (KeyError key)
  end.

(** [d.update(e)]: the entries of [e] replace those of [d]. *)
Definition update (d e : gmap string pyval) : gmap string pyval := e ∪ d.

(** Line 151 *)
Definition slice_opts : gmap string pyval :=
  <["ls" := Str "-"]> (<["color" := Str "firebrick"]> (<["lw" := Num (1 # 2)]> ∅)).

(** Lines 134-148 *)
Definition main_panel (self : Plot2D) (kw : kwargs) (a0 : Axes)
    : result (Image * Axes) :=
  let i := {| im_data := data self;
              im_origin := "lower";
              im_extent := extent self;
              im_aspect := "auto";
              im_norm := norm self;
              im_interpolation := "none";
              im_cmap := get (kw_cmap kw) "viridis";
              im_vmin := vmin self;
              im_vmax := vmax self |} in
  a0 ← ax_imshow i a0;
  a0 ← ax_set_xlabel Ax0 (lx (label self)) a0;
  a0 ← ax_set_ylabel Ax0 (ly (label self)) a0;
  Ok (i, a0).

(** The grid, the image, the three axes and the spacings with which a
    layout branch of [draw_fig] ends. *)
Definition panels : Type :=
  GridSpec * Image * Axes * option Axes * option Axes * option Q * option Q.

(** Lines 160-162: no slice. *)
Definition draw_main_only (self : Plot2D) (kw : kwargs) : result panels :=
  let g := {| nrows := 1; ncols := 1;
              height_ratios := [1%Z]; width_ratios := [1%Z] |} in
  let a0 := add_subplot (0, 0) None None in
  '(i, a0) ← main_panel self kw a0;
  Ok (g, i, a0, None, None, None, None).

(** Lines 166-191: the horizontal slice only.  The annotation text
    ["{:.1f}".format(x)] is kept as the number [x] it formats. *)
Definition draw_with_hslice (self : Plot2D) (kw : kwargs)
    (hslice_opts : gmap string pyval) (hi : nat) : result panels :=
  let g := {| nrows := 2; ncols := 1;
              height_ratios := [1%Z; 3%Z]; width_ratios := [1%Z] |} in
  let a0 := add_subplot (1, 0) None None in
  let ah := add_subplot (0, 0) (Some Ax0) None in
  '(i, a0) ← main_panel self kw a0;
  y ← np.getitem (v_axis self) (Z.of_nat hi);
  a0 ← ax_draw Ax0 (axhline y hslice_opts) a0;
  value ← np.getitem (v_axis self) (Z.of_nat hi);
  x3 ← np.getitem (h_axis self) 3%Z;
  y3 ← np.getitem (v_axis self) (Z.of_nat hi + 3)%Z;
  c ← dict_getitem hslice_opts "color";
  a0 ← ax_draw Ax0 (annotate value (x3, y3) c None) a0;
  let ah := set_xmargin 0 ah in
  ah ← ax_set_ylabel Axh (lz (label self)) ah;
  r ← np.row (data self) (Z.of_nat hi);
  ah ← ax_plot Axh (h_axis self) r hslice_opts ah;
  ah ← ax_set_ylim Axh (vmin self) (vmax self) ah;
  let ah := hide_xaxis ah in
  let ah := hide_spines ["top"; "bottom"; "right"] ah in
  Ok (g, i, a0, Some ah, None, None, Some (3 # 100)%Q).

(** Lines 195-221: the vertical slice only. *)
Definition draw_with_vslice (self : Plot2D) (kw : kwargs)
    (vslice_opts : gmap string pyval) (vi : nat) : result panels :=
  let g := {| nrows := 1; ncols := 2;
              height_ratios := [1%Z]; width_ratios := [3%Z; 1%Z] |} in
  let a0 := add_subplot (0, 0) None None in
  let av := add_subplot (0, 1) None (Some Ax0) in
  '(i, a0) ← main_panel self kw a0;
  x ← np.getitem (h_axis self) (Z.of_nat vi);
  a0 ← ax_draw Ax0 (axvline x vslice_opts) a0;
  value ← np.getitem (h_axis self) (Z.of_nat vi);
  x40 ← np.getitem (h_axis self) (Z.of_nat vi - 40)%Z;
  y40 ← np.getitem (v_axis self) (-40)%Z;
  c ← dict_getitem vslice_opts "color";
  a0 ← ax_draw Ax0 (annotate value (x40, y40) c (Some "vertical")) a0;
  let av := set_ymargin 0 av in
  av ← ax_set_xlabel Axv (lz (label self)) av;
  cl ← np.col (data self) (Z.of_nat vi);
  av ← ax_plot Axv cl (v_axis self) vslice_opts av;
  av ← ax_set_xlim Axv (vmin self) (vmax self) av;
  let av := hide_yaxis av in
  let av := hide_spines ["top"; "left"; "right"] av in
  Ok (g, i, a0, None, Some av, Some (3 # 100)%Q, None).

(** Lines 225-272: both slices. *)
Definition draw_with_both (self : Plot2D) (kw : kwargs)
    (hslice_opts vslice_opts : gmap string pyval) (hi vi : nat)
    : result panels :=
  let g := {| nrows := 2; ncols := 2;
              height_ratios := [1%Z; 3%Z]; width_ratios := [3%Z; 1%Z] |} in
  let a0 := add_subplot (1, 0) None None in
  let ah := add_subplot (0, 0) (Some Ax0) None in
  let av := add_subplot (1, 1) None (Some Ax0) in
  '(i, a0) ← main_panel self kw a0;
  y ← np.getitem (v_axis self) (Z.of_nat hi);
  a0 ← ax_draw Ax0 (axhline y hslice_opts) a0;
  x ← np.getitem (h_axis self) (Z.of_nat vi);
  a0 ← ax_draw Ax0 (axvline x vslice_opts) a0;
  hvalue ← np.getitem (v_axis self) (Z.of_nat hi);
  x3 ← np.getitem (h_axis self) 3%Z;
  y3 ← np.getitem (v_axis self) (Z.of_nat hi + 3)%Z;
  hc ← dict_getitem hslice_opts "color";
  a0 ← ax_draw Ax0 (annotate hvalue (x3, y3) hc None) a0;
  vvalue ← np.getitem (h_axis self) (Z.of_nat vi);
  x40 ← np.getitem (h_axis self) (Z.of_nat vi - 40)%Z;
  y40 ← np.getitem (v_axis self) (-40)%Z;
  vc ← dict_getitem vslice_opts "color";
  a0 ← ax_draw Ax0 (annotate vvalue (x40, y40) vc (Some "vertical")) a0;
  let ah := set_xmargin 0 ah in
  ah ← ax_set_ylabel Axh (lz (label self)) ah;
  r ← np.row (data self) (Z.of_nat hi);
  ah ← ax_plot Axh (h_axis self) r hslice_opts ah;
  ah ← ax_set_ylim Axh (vmin self) (vmax self) ah;
  let av := set_ymargin 0 av in
  av ← ax_set_xlabel Axv (lz (label self)) av;
  cl ← np.col (data self) (Z.of_nat vi);
  av ← ax_plot Axv cl (v_axis self) vslice_opts av;
  av ← ax_set_xlim Axv (vmin self) (vmax self) av;
  let ah := hide_xaxis ah in
  let av := hide_yaxis av in
  let ah := hide_spines ["top"; "bottom"; "right"] ah in
  let av := hide_spines ["top"; "left"; "right"] av in
  Ok (g, i, a0, Some ah, Some av, Some (3 # 100)%Q, Some (3 # 100)%Q).

(** Lines 276-297: the caption and the inset colorbar. *)
Definition finish (self : Plot2D) (p : panels) : result Figure :=
  let '(g, i, a0, ah, av, ws, hs) := p in
  a0 ← ax_draw Ax0 (axes_text (1 # 50) (1 # 50) (text self) "firebrick") a0;
  if cbar self then
    call (call_colorbar i);;
    let cb := {| cb_width := "70%"; cb_height := "3%"; cb_loc := 2%Z;
                 cb_orientation := "horizontal";
                 cb_tick_color := "firebrick";
                 cb_ticklabel_color := "firebrick" |} in
    a0 ← ax_draw Ax0
           (axes_text (37 # 50) (97 # 100) (lz (label self)) "firebrick") a0;
    Ok {| gs := g; im := i; ax0 := a0; axh := ah; axv := av;
          wspace := ws; hspace := hs; inset_colorbar := Some cb |}
  else
    Ok {| gs := g; im := i; ax0 := a0; axh := ah; axv := av;
          wspace := ws; hspace := hs; inset_colorbar := None |}.

(** Lines 150-297.  The four tests of the [if]/[elif]/[else] chain on
    [self.hslice_idx is None] and [self.vslice_idx is None] are the four
    cases of the match. *)
Definition draw_fig (self : Plot2D) (kw : kwargs) : result Figure :=
  let hslice_opts := update slice_opts (get (kw_hslice_opts kw) ∅) in
  let vslice_opts := update slice_opts (get (kw_vslice_opts kw) ∅) in
  p ← match hslice_idx self, vslice_idx self with
      | None, None => draw_main_only self kw
      | Some hi, None => draw_with_hslice self kw hslice_opts hi
      | None, Some vi => draw_with_vslice self kw vslice_opts vi
      | Some hi, Some vi => draw_with_both self kw hslice_opts vslice_opts hi vi
      end;
  finish self p.

(** [Plot2D(arr2d, h_axis, v_axis, xlabel, ylabel, zlabel, **kwargs)]: the
    attributes (lines 58-93), the figure and its canvas (lines 95, 106), then
    the drawing (line 108); an exception leaves the caller with nothing. *)
Definition __init__ (arr2d : np.ndarray2) (h_axis0 v_axis0 : list Q)
    (xlabel ylabel zlabel : string) (kw : kwargs) : result (Plot2D * Figure) :=
  self ← init_attrs arr2d h_axis0 v_axis0 xlabel ylabel zlabel kw;
  call (call_Figure (figsize self));;
  call (call_FigureCanvas (figsize self));;
  fig ← draw_fig self kw;
  Ok (self, fig).

End Drawing.

(** [__str__] (lines 110-118): the six numbers that the summary formats
    with three decimals, the first four under the name [extent]. *)
Definition __str__ (self : Plot2D) : result (Q * Q * Q * Q * Q * Q) :=
  hmin ← np.min (h_axis self);
  hmax ← np.max (h_axis self);
  vmin0 ← np.min (v_axis self);
  vmax0 ← np.max (v_axis self);
  mn ← np.amin (data self);
  mx ← np.amax (data self);
  Ok (hmin, hmax, vmin0, vmax0, mn, mx).

(** ** Scenarios *)

Definition no_kwargs : kwargs :=
  {| kw_extent := None; kw_vmin := None; kw_vmax := None;
     kw_hslice_val := None; kw_vslice_val := None;
     kw_hslice_opts := None; kw_vslice_opts := None;
     kw_cbar := None; kw_norm := None; kw_text := None;
     kw_figsize := None; kw_cmap := None |}.

(** [dict(kw, hslice_val=v)] and the like. *)
Definition with_hslice_val (v : Q) (kw : kwargs) : kwargs :=
  {| kw_extent := kw_extent kw; kw_vmin := kw_vmin kw; kw_vmax := kw_vmax kw;
     kw_hslice_val := Some v; kw_vslice_val := kw_vslice_val kw;
     kw_hslice_opts := kw_hslice_opts kw; kw_vslice_opts := kw_vslice_opts kw;
     kw_cbar := kw_cbar kw; kw_norm := kw_norm kw; kw_text := kw_text kw;
     kw_figsize := kw_figsize kw; kw_cmap := kw_cmap kw |}.

Definition with_vslice_val (v : Q) (kw : kwargs) : kwargs :=
  {| kw_extent := kw_extent kw; kw_vmin := kw_vmin kw; kw_vmax := kw_vmax kw;
     kw_hslice_val := kw_hslice_val kw; kw_vslice_val := Some v;
     kw_hslice_opts := kw_hslice_opts kw; kw_vslice_opts := kw_vslice_opts kw;
     kw_cbar := kw_cbar kw; kw_norm := kw_norm kw; kw_text := kw_text kw;
     kw_figsize := kw_figsize kw; kw_cmap := kw_cmap kw |}.

Definition with_extent (e : Q * Q * Q * Q) (kw : kwargs) : kwargs :=
  {| kw_extent := Some e; kw_vmin := kw_vmin kw; kw_vmax := kw_vmax kw;
     kw_hslice_val := kw_hslice_val kw; kw_vslice_val := kw_vslice_val kw;
     kw_hslice_opts := kw_hslice_opts kw; kw_vslice_opts := kw_vslice_opts kw;
     kw_cbar := kw_cbar kw; kw_norm := kw_norm kw; kw_text := kw_text kw;
     kw_figsize := kw_figsize kw; kw_cmap := kw_cmap kw |}.

(** The keyword arguments [kw] with the keys [vmin] and [vmax] set, or
    removed, as [lo] and [hi] say. *)
Definition with_vrange (lo hi : option Q) (kw : kwargs) : kwargs :=
  {| kw_extent := kw_extent kw; kw_vmin := lo; kw_vmax := hi;
     kw_hslice_val := kw_hslice_val kw; kw_vslice_val := kw_vslice_val kw;
     kw_hslice_opts := kw_hslice_opts kw; kw_vslice_opts := kw_vslice_opts kw;
     kw_cbar := kw_cbar kw; kw_norm := kw_norm kw; kw_text := kw_text kw;
     kw_figsize := kw_figsize kw; kw_cmap := kw_cmap kw |}.

Definition with_slice_opts (ho vo : option (gmap string pyval)) (kw : kwargs)
    : kwargs :=
  {| kw_extent := kw_extent kw; kw_vmin := kw_vmin kw; kw_vmax := kw_vmax kw;
     kw_hslice_val := kw_hslice_val kw; kw_vslice_val := kw_vslice_val kw;
     kw_hslice_opts := ho; kw_vslice_opts := vo;
     kw_cbar := kw_cbar kw; kw_norm := kw_norm kw; kw_text := kw_text kw;
     kw_figsize := kw_figsize kw; kw_cmap := kw_cmap kw |}.

(** A list of integers as an array of numbers. *)
Definition ints (l : list Z) : list Q := inject_Z <$> l.

(** The array of [row * n + col] for [row], [col] below [n], and the axis
    [0, 1, ..., n - 1]. *)
Definition grid (n : nat) : np.ndarray2 :=
  (fun r => (fun c => inject_Z (Z.of_nat (r * n + c))) <$> seq 0 n) <$> seq 0 n.

Definition axis (n : nat) : list Q :=
  (fun c => inject_Z (Z.of_nat c)) <$> seq 0 n.

(** The docstring's [vslice_opts={'color': 'blue', 'ls': '-'}]. *)
Definition blue_opts : gmap string pyval :=
  <["color" := Str "blue"]> (<["ls" := Str "-"]> ∅).

Definition both_slices : kwargs :=
  with_hslice_val 7 (with_vslice_val 5 no_kwargs).

(** A matplotlib that raises on no call. *)
Definition accepting : matplotlib := fun _ => None.



(** * Vocabulary of the properties *)

(** ** Axes *)

(** The distance of [x] to [v] is minimal at position [k] of [l], and
    strictly below that of every earlier element. *)
Definition nearest (v : Q) (l : list Q) (k : nat) (dist : Q) : Prop :=
  forall j y, l !! j = Some y ->
    (dist <= Qabs (y - v))%Q /\ (j < k -> (dist < Qabs (y - v))%Q).

(** A strictly increasing axis. *)
Definition increasing (a : list Q) : Prop :=
  forall i j x y, a !! i = Some x -> a !! j = Some y -> i < j -> (x < y)%Q.

(** ** Figures *)

(** The image every branch hands to [imshow]. *)
Definition the_image (self : Plot2D) (kw : kwargs) : Image :=
  {| im_data := data self; im_origin := "lower"; im_extent := extent self;
     im_aspect := "auto"; im_norm := norm self; im_interpolation := "none";
     im_cmap := get (kw_cmap kw) "viridis";
     im_vmin := vmin self; im_vmax := vmax self |}.

(** The main axes at grid cell [rc] with the artists [arts] drawn on it. *)
Definition main_axes (self : Plot2D) (kw : kwargs) (rc : nat * nat)
    (arts : list artist) : Axes :=
  {| cell := rc; sharex := None; sharey := None;
     image := Some (the_image self kw);
     xlabel := lx (label self); ylabel := ly (label self);
     artists := arts; xlim := None; ylim := None;
     xmargin := None; ymargin := None;
     xaxis_visible := true; yaxis_visible := true; hidden_spines := [] |}.

(** The strip above the main axes: the row [r] of the data against the
    horizontal axis. *)
Definition hslice_axes (self : Plot2D) (o : gmap string pyval) (r : list Q)
    : Axes :=
  {| cell := (0, 0); sharex := Some Ax0; sharey := None; image := None;
     xlabel := ""; ylabel := lz (label self);
     artists := [plot (h_axis self) r o];
     xlim := None; ylim := Some (vmin self, vmax self);
     xmargin := Some 0%Q; ymargin := None;
     xaxis_visible := false; yaxis_visible := true;
     hidden_spines := ["top"; "bottom"; "right"] |}.

(** The strip right of the main axes, at grid cell [rc]: the vertical axis
    against the column [c] of the data. *)
Definition vslice_axes (self : Plot2D) (o : gmap string pyval)
    (rc : nat * nat) (c : list Q) : Axes :=
  {| cell := rc; sharex := None; sharey := Some Ax0; image := None;
     xlabel := lz (label self); ylabel := "";
     artists := [plot c (v_axis self) o];
     xlim := Some (vmin self, vmax self); ylim := None;
     xmargin := None; ymargin := Some 0%Q;
     xaxis_visible := true; yaxis_visible := false;
     hidden_spines := ["top"; "left"; "right"] |}.



(** [o is None] *)
Definition is_none {A : Type} (o : option A) : bool :=
  match o with
  | None => true
  | Some _ => false
  end.












(** ** Line styles *)

(** The color of a slice line whose options are [o]: the entry ["color"] of
    the options when there is one, otherwise ["firebrick"]. *)
Definition slice_color (o : option (gmap string pyval)) : pyval :=
  match o with
  | Some d => match d !! "color" with
              | Some c => c
              | None => Str "firebrick"
              end
  | None => Str "firebrick"
  end.

(** [styled hc vc a]: the artist [a], if it belongs to a slice, has the
    color [hc] when it is the horizontal line or its annotation, [vc] when
    it is the vertical line or its annotation (the one turned vertically). *)
Definition styled (hc vc : pyval) (a : artist) : Prop :=
  match a with
  | axhline _ o => o !! "color" = Some hc
  | axvline _ o => o !! "color" = Some vc
  | annotate _ _ c None => c = hc
  | annotate _ _ c (Some _) => c = vc
  | plot _ _ _ => False
  | axes_text _ _ _ _ => True
  end.

(** [curve c a]: [a] is a curve of color [c]. *)
Definition curve (c : pyval) (a : artist) : Prop :=
  match a with
  | plot _ _ o => o !! "color" = Some c
  | _ => False
  end.

Definition is_axhline (a : artist) : bool :=
  match a with axhline _ _ => true | _ => false end.

Definition is_axvline (a : artist) : bool :=
  match a with axvline _ _ => true | _ => false end.

Definition hline_color (a : artist) : option pyval :=
  match a with
  | axhline _ o => o !! "color"
  | _ => None
  end.

Definition vline_color (a : artist) : option pyval :=
  match a with
  | axvline _ o => o !! "color"
  | _ => None
  end.

(** ** Outcomes *)

(** [e] is an exception with which the matplotlib in use answers a call. *)
Definition from_matplotlib {mpl : matplotlib} (e : exn) : Prop :=
  exists c, mpl_raises c = Some e.

Definition is_IndexError (e : exn) : Prop :=
  match e with IndexError _ => True | _ => False end.

(** [fails P r]: the outcome [r] is an exception, one that satisfies [P].
    [raises_only P r]: if it is an exception, it satisfies [P]. *)
Definition fails {A : Type} (P : exn -> Prop) (r : result A) : Prop :=
  match r with
  | Ok _ => False
  | Raise e => P e
  end.

Definition raises_only {A : Type} (P : exn -> Prop) (r : result A) : Prop :=
  match r with
  | Ok _ => True
  | Raise e => P e
  end.

(** An [IndexError], or an exception of matplotlib: what a layout branch
    raises up to the placing of the annotations. *)
Definition index_or_matplotlib {mpl : matplotlib} (e : exn) : Prop :=
  is_IndexError e \/ from_matplotlib e.

(** The figure that lines 276-297 make of the panels of a layout branch
    when every call returns: the caption on the main axes and, with [cbar],
    the inset colorbar and the z label. *)
Definition the_figure (self : Plot2D) (p : panels) : Figure :=
  let '(g, i, a0, ah, av, ws, hs) := p in
  let a0 := draw (axes_text (1 # 50) (1 # 50) (text self) "firebrick") a0 in
  if cbar self then
    let a0 :=
      draw (axes_text (37 # 50) (97 # 100) (lz (label self)) "firebrick") a0 in
    {| gs := g; im := i; ax0 := a0; axh := ah; axv := av;
       wspace := ws; hspace := hs;
       inset_colorbar :=
         Some {| cb_width := "70%"; cb_height := "3%"; cb_loc := 2%Z;
                 cb_orientation := "horizontal";
                 cb_tick_color := "firebrick";
                 cb_ticklabel_color := "firebrick" |} |}
  else
    {| gs := g; im := i; ax0 := a0; axh := ah; axv := av;
       wspace := ws; hspace := hs; inset_colorbar := None |}.

(** ** Objects and what can be drawn *)

Definition is_text (a : artist) : bool :=
  match a with axes_text _ _ _ _ => true | _ => false end.

(** The inset colorbar that [draw_fig] makes. *)
Definition the_colorbar : Colorbar :=
  {| cb_width := "70%"; cb_height := "3%"; cb_loc := 2%Z;
     cb_orientation := "horizontal";
     cb_tick_color := "firebrick"; cb_ticklabel_color := "firebrick" |}.



(** The extent, when given, reaches from at or below the least to at or
    above the greatest element of both axes. *)
Definition covers (kw : kwargs) (h v : list Q) : Prop :=
  match kw_extent kw with
  | None => True
  | Some (xmin, xmax, ymin, ymax) =>
      Forall (fun x => (xmin <= x)%Q /\ (x <= xmax)%Q) h /\
      Forall (fun y => (ymin <= y)%Q /\ (y <= ymax)%Q) v
  end.

(** [merged user o]: the options [o] are the default slice options
    overridden, key by key, by the options [user] when these are given. *)
Definition merged (user : option (gmap string pyval))
    (o : gmap string pyval) : Prop :=
  forall k,
    o !! k = match get user ∅ !! k with
             | Some value => Some value
             | None => slice_opts !! k
             end.

(** [with_options ho vo a]: a slice line or curve [a] carries the merged
    options of its slice. *)
Definition with_options (ho vo : option (gmap string pyval)) (a : artist)
    : Prop :=
  match a with
  | axhline _ o => merged ho o
  | axvline _ o => merged vo o
  | _ => True
  end.

Definition curve_with_options (user : option (gmap string pyval))
    (a : artist) : Prop :=
  match a with
  | plot _ _ o => merged user o
  | _ => False
  end.

(** * Properties *)

(** ** The exception monad *)

Lemma bind_Ok {A B : Type} (r : result A) (f : A -> result B) (b : B) :
  r ≫= f = Ok b <-> exists a, r = Ok a /\ f a = Ok b.
Proof.
  destruct r as [a|e]; simpl; split.
  - intros H. exists a. split; [reflexivity | exact H].
  - intros (a' & Ha & Hf). injection Ha as ->. exact Hf.
  - discriminate.
  - intros (a' & Ha & _). discriminate.
Qed.

Lemma bind_Raise {A B : Type} (r : result A) (f : A -> result B) (e : exn) :
  r ≫= f = Raise e <-> r = Raise e \/ exists a, r = Ok a /\ f a = Raise e.
Proof.
  destruct r as [a|e']; simpl; split.
  - intros H. right. exists a. split; [reflexivity | exact H].
  - intros [H | (a' & Ha & Hf)]; [discriminate |]. injection Ha as ->. exact Hf.
  - intros [= ->]. left. reflexivity.
  - intros [[= ->] | (a' & Ha & _)]; [reflexivity | discriminate].
Qed.

(** From [H : x ← r; k = Ok b] to [E : r = Ok x] and [H : k = Ok b]. *)
Ltac ok_step H x E :=
  apply bind_Ok in H; destruct H as (x & E & H).

(** From [E : match l !! k with Some x => Ok x | None => Raise _ end = Ok a]
    to [H : l !! k = Some a]. *)
Ltac lookup_inv E H :=
  match type of E with
  | match ?t with Some _ => _ | None => _ end = Ok _ =>
      destruct t eqn:H; [injection E as -> | discriminate E]
  end.

Lemma raises_only_bind {A B : Type} (P : exn -> Prop) (r : result A)
    (f : A -> result B) :
  raises_only P r -> (forall a, r = Ok a -> raises_only P (f a)) ->
  raises_only P (r ≫= f).
Proof. destruct r as [a|e]; simpl; [intros _ H; apply H; reflexivity | auto]. Qed.

Lemma fails_bind {A B : Type} (P : exn -> Prop) (r : result A)
    (f : A -> result B) :
  raises_only P r -> (forall a, r = Ok a -> fails P (f a)) ->
  fails P (r ≫= f).
Proof. destruct r as [a|e]; simpl; [intros _ H; apply H; reflexivity | auto]. Qed.

Lemma fails_raises_only {A : Type} (P : exn -> Prop) (r : result A) :
  fails P r -> raises_only P r.
Proof. destruct r; simpl; tauto. Qed.

Lemma raises_only_impl {A : Type} (P P' : exn -> Prop) (r : result A) :
  (forall e, P e -> P' e) -> raises_only P r -> raises_only P' r.
Proof. destruct r; simpl; auto. Qed.


Lemma fails_Raise {A : Type} (P : exn -> Prop) (r : result A) :
  fails P r <-> exists e, r = Raise e /\ P e.
Proof.
  destruct r as [a|e]; simpl; split.
  - tauto.
  - intros (e & He & _). discriminate He.
  - intros H. exists e. auto.
  - intros (e' & [= <-] & H). exact H.
Qed.


(** ** numpy *)

Lemma lesser_le_l (m x : Q) : (np.lesser m x <= m)%Q.
Proof.
  unfold np.lesser. destruct (x ?= m)%Q eqn:E.
  - apply Qle_refl.
  - apply Qlt_le_weak, Qlt_alt, E.
  - apply Qle_refl.
Qed.

Lemma lesser_le_r (m x : Q) : (np.lesser m x <= x)%Q.
Proof.
  unfold np.lesser. destruct (x ?= m)%Q eqn:E.
  - apply Qeq_alt in E. rewrite E. apply Qle_refl.
  - apply Qle_refl.
  - apply Qlt_le_weak, Qgt_alt, E.
Qed.

Lemma lesser_cases (m x : Q) : np.lesser m x = m \/ np.lesser m x = x.
Proof. unfold np.lesser. destruct (x ?= m)%Q; auto. Qed.

Lemma greater_ge_l (m x : Q) : (m <= np.greater m x)%Q.
Proof.
  unfold np.greater. destruct (m ?= x)%Q eqn:E.
  - apply Qle_refl.
  - apply Qlt_le_weak, Qlt_alt, E.
  - apply Qle_refl.
Qed.

Lemma greater_ge_r (m x : Q) : (x <= np.greater m x)%Q.
Proof.
  unfold np.greater. destruct (m ?= x)%Q eqn:E.
  - apply Qeq_alt in E. rewrite E. apply Qle_refl.
  - apply Qle_refl.
  - apply Qlt_le_weak, Qgt_alt, E.
Qed.

Lemma greater_cases (m x : Q) : np.greater m x = m \/ np.greater m x = x.
Proof. unfold np.greater. destruct (m ?= x)%Q; auto. Qed.

Lemma fold_lesser (a : list Q) (m : Q) :
  let r := fold_left np.lesser a m in
  (r <= m)%Q /\ Forall (fun x => (r <= x)%Q) a /\ (r = m \/ In r a).
Proof.
  revert m. induction a as [|x a IH]; intros m; simpl.
  - repeat split; [apply Qle_refl | constructor | left; reflexivity].
  - destruct (IH (np.lesser m x)) as (Hle & Hall & Hin).
    split; [| split].
    + eapply Qle_trans; [exact Hle | apply lesser_le_l].
    + constructor; [| exact Hall].
      eapply Qle_trans; [exact Hle | apply lesser_le_r].
    + destruct Hin as [-> | Hin]; [| right; right; exact Hin].
      destruct (lesser_cases m x) as [-> | ->]; [left | right; left]; reflexivity.
Qed.

Lemma fold_greater (a : list Q) (m : Q) :
  let r := fold_left np.greater a m in
  (m <= r)%Q /\ Forall (fun x => (x <= r)%Q) a /\ (r = m \/ In r a).
Proof.
  revert m. induction a as [|x a IH]; intros m; simpl.
  - repeat split; [apply Qle_refl | constructor | left; reflexivity].
  - destruct (IH (np.greater m x)) as (Hle & Hall & Hin).
    split; [| split].
    + eapply Qle_trans; [apply greater_ge_l | exact Hle].
    + constructor; [| exact Hall].
      eapply Qle_trans; [apply greater_ge_r | exact Hle].
    + destruct Hin as [-> | Hin]; [| right; right; exact Hin].
      destruct (greater_cases m x) as [-> | ->]; [left | right; left]; reflexivity.
Qed.

(** [np.min] returns an element of the array that no element is below. *)
Lemma min_spec (a : list Q) (m : Q) :
  np.min a = Ok m -> In m a /\ Forall (fun x => (m <= x)%Q) a.
Proof.
  destruct a as [|x a]; [discriminate |]. simpl. intros [= <-].
  destruct (fold_lesser a x) as (Hle & Hall & Hin). split.
  - destruct Hin as [-> | Hin]; [left; reflexivity | right; exact Hin].
  - constructor; assumption.
Qed.

Lemma max_spec (a : list Q) (m : Q) :
  np.max a = Ok m -> In m a /\ Forall (fun x => (x <= m)%Q) a.
Proof.
  destruct a as [|x a]; [discriminate |]. simpl. intros [= <-].
  destruct (fold_greater a x) as (Hle & Hall & Hin). split.
  - destruct Hin as [-> | Hin]; [left; reflexivity | right; exact Hin].
  - constructor; assumption.
Qed.



Lemma length_slice {A : Type} (i j : nat) (a : list A) :
  length (np.slice i j a) = Nat.min (j - i) (length a - i).
Proof. unfold np.slice. rewrite length_take, length_drop. reflexivity. Qed.

Lemma slice_empty {A : Type} (i j : nat) (a : list A) :
  j <= i -> np.slice i j a = [].
Proof. intros H. unfold np.slice. replace (j - i) with 0 by lia. reflexivity. Qed.

Lemma concat_slice2_empty (r0 r1 c0 c1 : nat) (d : np.ndarray2) :
  r1 <= r0 \/ c1 <= c0 -> concat (np.slice2 r0 r1 c0 c1 d) = [].
Proof.
  intros [H | H]; unfold np.slice2.
  - rewrite slice_empty by exact H. reflexivity.
  - induction (np.slice r0 r1 d) as [|r rs IH]; [reflexivity |].
    rewrite fmap_cons. cbn [concat]. rewrite IH, slice_empty by exact H.
    reflexivity.
Qed.

(** Indexing raises nothing but the [IndexError] that names the index,
    the axis and its size. *)
Lemma item_Raise {A : Type} (ax : nat) (a : list A) (i : Z) (e : exn) :
  np.item ax a i = Raise e ->
  e = IndexError (np.out_of_bounds i ax (length a)).
Proof.
  unfold np.item.
  destruct (_ <? 0)%Z; [intros [= <-]; reflexivity |].
  destruct (a !! _); [discriminate | intros [= <-]; reflexivity].
Qed.

Lemma getitem_Raise {A : Type} (a : list A) (i : Z) (e : exn) :
  np.getitem a i = Raise e ->
  e = IndexError (np.out_of_bounds i 0 (length a)).
Proof. apply item_Raise. Qed.

Lemma item_nat {A : Type} (ax : nat) (a : list A) (k : nat) :
  np.item ax a (Z.of_nat k) =
  match a !! k with
  | Some x => Ok x
  | None => Raise (IndexError (np.out_of_bounds (Z.of_nat k) ax (length a)))
  end.
Proof.
  unfold np.item.
  destruct (Z.ltb_spec (Z.of_nat k) 0) as [H | _]; [lia |].
  destruct (Z.ltb_spec (Z.of_nat k) 0) as [H | _]; [lia |].
  rewrite Nat2Z.id. reflexivity.
Qed.

Lemma getitem_nat {A : Type} (a : list A) (k : nat) :
  np.getitem a (Z.of_nat k) =
  match a !! k with
  | Some x => Ok x
  | None => Raise (IndexError (np.out_of_bounds (Z.of_nat k) 0 (length a)))
  end.
Proof. apply item_nat. Qed.

(** An index at or beyond the length raises. *)
Lemma getitem_beyond {A : Type} (a : list A) (i : Z) :
  (Z.of_nat (length a) <= i)%Z ->
  np.getitem a i = Raise (IndexError (np.out_of_bounds i 0 (length a))).
Proof.
  intros H. unfold np.getitem, np.item.
  destruct (Z.ltb_spec i 0) as [H0 | _]; [lia |].
  destruct (Z.ltb_spec i 0) as [H0 | _]; [lia |].
  rewrite (lookup_ge_None_2 a (Z.to_nat i)) by lia. reflexivity.
Qed.

(** A negative index below [-len] raises. *)
Lemma getitem_below {A : Type} (a : list A) (i : Z) :
  (i < - Z.of_nat (length a))%Z ->
  np.getitem a i = Raise (IndexError (np.out_of_bounds i 0 (length a))).
Proof.
  intros H. unfold np.getitem, np.item.
  destruct (Z.ltb_spec i 0) as [_ | H0]; [| lia].
  destruct (Z.ltb_spec (i + Z.of_nat (length a)) 0) as [_ | H0]; [| lia].
  reflexivity.
Qed.


(** ** Nearest-index lookup *)

Section Scan.

(** The value looked up. *)
Variable v : Q.

Lemma scan_lt (a : list Q) (i bi : nat) (bd : Q) :
  bi < i -> scan v a i bi bd < i + length a.
Proof.
  revert i bi bd. induction a as [|x a IH]; intros i bi bd Hbi; simpl.
  - lia.
  - destruct (_ ?= _)%Q;
      (eapply Nat.lt_le_trans; [apply IH; lia | lia]).
Qed.

Lemma nearest_snoc_keep (pre : list Q) (bi : nat) (bd x : Q) :
  bi < length pre -> nearest v pre bi bd -> (bd <= Qabs (x - v))%Q ->
  nearest v (pre ++ [x]) bi bd.
Proof.
  intros Hbi Hn Hle j y Hj.
  destruct (decide (j < length pre)) as [Hlt | Hge].
  - rewrite lookup_app_l in Hj by exact Hlt. exact (Hn j y Hj).
  - rewrite lookup_app_r in Hj by lia.
    destruct (j - length pre) eqn:E; [| destruct n; discriminate].
    injection Hj as <-. split; [exact Hle | intros ?; lia].
Qed.

Lemma nearest_snoc_take (pre : list Q) (bi : nat) (bd x : Q) :
  nearest v pre bi bd -> (Qabs (x - v) < bd)%Q ->
  nearest v (pre ++ [x]) (length pre) (Qabs (x - v)).
Proof.
  intros Hn Hlt j y Hj.
  destruct (decide (j < length pre)) as [Hj' | Hge].
  - rewrite lookup_app_l in Hj by exact Hj'.
    destruct (Hn j y Hj) as [Hle _].
    assert (Qabs (x - v) < Qabs (y - v))%Q by (eapply Qlt_le_trans; eassumption).
    split; [apply Qlt_le_weak |]; auto.
  - rewrite lookup_app_r in Hj by lia.
    destruct (j - length pre) eqn:E; [| destruct n; discriminate].
    injection Hj as <-. split; [apply Qle_refl | intros ?; lia].
Qed.

Lemma scan_nearest (a pre : list Q) (bi : nat) (xb : Q) :
  pre !! bi = Some xb ->
  nearest v pre bi (Qabs (xb - v)) ->
  let k := scan v a (length pre) bi (Qabs (xb - v)) in
  exists x, (pre ++ a) !! k = Some x /\ nearest v (pre ++ a) k (Qabs (x - v)).
Proof.
  revert pre bi xb. induction a as [|x a IH]; intros pre bi xb Hb Hn; simpl.
  - exists xb. rewrite app_nil_r. auto.
  - assert (Hbi : bi < length pre) by (eapply lookup_lt_Some; exact Hb).
    replace (pre ++ x :: a) with ((pre ++ [x]) ++ a)
      by (rewrite <- app_assoc; reflexivity).
    replace (S (length pre)) with (length (pre ++ [x]))
      by (rewrite length_app; simpl; lia).
    destruct (_ ?= _)%Q eqn:E.
    + apply IH.
      * rewrite lookup_app_l by exact Hbi. exact Hb.
      * apply nearest_snoc_keep; [exact Hbi | exact Hn |].
        apply Qeq_alt in E. rewrite E. apply Qle_refl.
    + apply Qlt_alt in E. apply (IH (pre ++ [x]) (length pre) x).
      * rewrite lookup_app_r by lia. rewrite Nat.sub_diag. reflexivity.
      * eapply nearest_snoc_take; eassumption.
    + apply IH.
      * rewrite lookup_app_l by exact Hbi. exact Hb.
      * apply nearest_snoc_keep; [exact Hbi | exact Hn |].
        apply Qlt_le_weak, Qgt_alt, E.
Qed.

End Scan.

Lemma idx_from_val_Raise (a : list Q) (v : Q) (e : exn) :
  idx_from_val a v = Raise e -> a = [].
Proof. destruct a; [reflexivity | discriminate]. Qed.

(** On a non-empty axis the lookup returns an index. *)
Lemma idx_from_val_total (a : list Q) (v : Q) :
  a <> [] -> exists k, idx_from_val a v = Ok k.
Proof. destruct a; [congruence | eexists; reflexivity]. Qed.

(** The index is one of the axis. *)
Lemma idx_from_val_lt (a : list Q) (v : Q) (k : nat) :
  idx_from_val a v = Ok k -> k < length a.
Proof.
  destruct a as [|x a]; [discriminate |]. intros [= <-].
  apply (scan_lt v a 1 0 (Qabs (x - v))). lia.
Qed.

(** The element at the index is nearest to the value, and strictly nearer
    than every element before it. *)
Lemma idx_from_val_nearest (a : list Q) (v : Q) (k : nat) :
  idx_from_val a v = Ok k ->
  exists x, a !! k = Some x /\ nearest v a k (Qabs (x - v)).
Proof.
  destruct a as [|x0 a]; [discriminate |]. intros [= <-].
  apply (scan_nearest v a [x0] 0 x0); [reflexivity |].
  intros [|j] y Hj; [| discriminate].
  injection Hj as <-. split; [apply Qle_refl | intros ?; lia].
Qed.

(** On a strictly increasing axis a value at or below the first element
    resolves to the index 0, a value at or above the last element to the
    last index. *)
Lemma clamp_low (a : list Q) (v x0 : Q) :
  increasing a -> a !! 0 = Some x0 -> (v <= x0)%Q -> idx_from_val a v = Ok 0.
Proof.
  intros Hinc H0 Hv.
  destruct (idx_from_val a v) as [k|e] eqn:E.
  - destruct (idx_from_val_nearest a v k E) as (x & Hx & Hn).
    destruct k as [|k]; [reflexivity | exfalso].
    destruct (Hn 0 x0 H0) as [_ Hlt]. specialize (Hlt ltac:(lia)).
    pose proof (Hinc 0 (S k) x0 x H0 Hx ltac:(lia)) as Hxx.
    revert Hlt. apply Qle_not_lt.
    rewrite (Qabs_pos (x0 - v)), (Qabs_pos (x - v)); lra.
  - apply idx_from_val_Raise in E as ->. discriminate H0.
Qed.

Lemma clamp_high (a : list Q) (v xl : Q) :
  increasing a -> a !! (length a - 1) = Some xl -> (xl <= v)%Q ->
  idx_from_val a v = Ok (length a - 1).
Proof.
  intros Hinc Hl Hv.
  destruct (idx_from_val a v) as [k|e] eqn:E.
  - destruct (idx_from_val_nearest a v k E) as (x & Hx & Hn).
    pose proof (idx_from_val_lt a v k E) as Hk.
    destruct (decide (k = length a - 1)) as [-> | Hne]; [reflexivity | exfalso].
    destruct (Hn _ xl Hl) as [Hle _].
    pose proof (Hinc k (length a - 1) x xl Hx Hl ltac:(lia)) as Hxx.
    revert Hle. apply Qlt_not_le.
    rewrite (Qabs_neg (xl - v)), (Qabs_neg (x - v)); lra.
  - apply idx_from_val_Raise in E as ->. discriminate Hl.
Qed.

(** The default extent of an axis, its minimum and its maximum, resolves
    to the first and to the last index when the axis increases. *)
Lemma default_window (a : list Q) (mn mx : Q) :
  increasing a -> np.min a = Ok mn -> np.max a = Ok mx ->
  idx_from_val a mn = Ok 0 /\ idx_from_val a mx = Ok (length a - 1).
Proof.
  intros Hinc Hmn Hmx.
  destruct a as [|x0 a]; [discriminate |].
  apply min_spec in Hmn as [_ Hmn]. apply max_spec in Hmx as [_ Hmx].
  rewrite Forall_forall in Hmn, Hmx.
  assert (Hl : is_Some ((x0 :: a) !! (length (x0 :: a) - 1)))
    by (apply lookup_lt_is_Some_2; simpl; lia).
  destruct Hl as [xl Hl].
  split.
  - apply (clamp_low _ _ x0 Hinc eq_refl). apply Hmn. left.
  - apply (clamp_high _ _ xl Hinc Hl). apply Hmx.
    eapply list_elem_of_lookup_2, Hl.
Qed.

(** ** What the numpy operations raise *)

Lemma getitem_only {A : Type} (P : exn -> Prop) (a : list A) (i : Z) :
  (forall m, P (IndexError m)) -> raises_only P (np.getitem a i).
Proof.
  intros HP. destruct (np.getitem a i) as [x|e] eqn:E; [exact I |].
  apply getitem_Raise in E as ->. apply HP.
Qed.

Lemma getitem_cases {A : Type} (a : list A) (i : Z) :
  (exists x, np.getitem a i = Ok x) \/
  np.getitem a i = Raise (IndexError (np.out_of_bounds i 0 (length a))).
Proof.
  destruct (np.getitem a i) as [x|e] eqn:E; [left; eauto |].
  right. apply getitem_Raise in E. subst. reflexivity.
Qed.

Lemma col_Raise (d : np.ndarray2) (j : Z) (e : exn) :
  np.col d j = Raise e -> is_IndexError e.
Proof.
  unfold np.col. induction d as [|r d IH]; [discriminate |].
  cbn [mapM]. intros H.
  apply bind_Raise in H as [H | (x & _ & H)];
    [apply item_Raise in H as ->; exact I |].
  apply bind_Raise in H as [H | (k & _ & H)]; [auto | discriminate H].
Qed.

Lemma col_only (P : exn -> Prop) (d : np.ndarray2) (j : Z) :
  (forall m, P (IndexError m)) -> raises_only P (np.col d j).
Proof.
  intros HP. destruct (np.col d j) as [x|e] eqn:E; [exact I |].
  apply col_Raise in E. destruct e; try contradiction. apply HP.
Qed.

(** ** What [draw_fig] builds *)

Lemma color_total (o : gmap string pyval) :
  dict_getitem (update slice_opts o) "color" =
  Ok (get (o !! "color") (Str "firebrick")).
Proof.
  unfold dict_getitem, update. rewrite lookup_union.
  destruct (o !! "color") as [c|]; reflexivity.
Qed.

Lemma dict_getitem_Ok (d : gmap string pyval) (key : string) (v : pyval) :
  dict_getitem d key = Ok v <-> d !! key = Some v.
Proof.
  unfold dict_getitem. destruct (d !! key); split; congruence.
Qed.

Section Calls.

Context {mpl : matplotlib}.

Lemma call_Ok (c : mpl_call) (u : unit) :
  call c = Ok u -> mpl_raises c = None.
Proof. unfold call. destruct (mpl_raises c); [discriminate | reflexivity]. Qed.

Lemma call_accepted (c : mpl_call) :
  mpl_raises c = None -> call c = Ok tt.
Proof. unfold call. intros ->. reflexivity. Qed.

Lemma call_only (P : exn -> Prop) (c : mpl_call) :
  (forall e, from_matplotlib e -> P e) -> raises_only P (call c).
Proof.
  intros HP. unfold call. destruct (mpl_raises c) as [e|] eqn:E; [| exact I].
  apply HP. exists c. exact E.
Qed.

Lemma ax_imshow_Ok (i : Image) (ax ax' : Axes) :
  ax_imshow i ax = Ok ax' -> ax' = set_image i ax.
Proof.
  unfold ax_imshow, call. destruct (mpl_raises _); [discriminate |].
  intros [= <-]. reflexivity.
Qed.

Lemma ax_set_xlabel_Ok (on : axes_name) (s : string) (ax ax' : Axes) :
  ax_set_xlabel on s ax = Ok ax' -> ax' = set_xlabel s ax.
Proof.
  unfold ax_set_xlabel, call. destruct (mpl_raises _); [discriminate |].
  intros [= <-]. reflexivity.
Qed.

Lemma ax_set_ylabel_Ok (on : axes_name) (s : string) (ax ax' : Axes) :
  ax_set_ylabel on s ax = Ok ax' -> ax' = set_ylabel s ax.
Proof.
  unfold ax_set_ylabel, call. destruct (mpl_raises _); [discriminate |].
  intros [= <-]. reflexivity.
Qed.

Lemma ax_draw_Ok (on : axes_name) (a : artist) (ax ax' : Axes) :
  ax_draw on a ax = Ok ax' -> ax' = draw a ax.
Proof.
  unfold ax_draw, call. destruct (mpl_raises _); [discriminate |].
  intros [= <-]. reflexivity.
Qed.

Lemma ax_set_xlim_Ok (on : axes_name) (lo hi : Q) (ax ax' : Axes) :
  ax_set_xlim on lo hi ax = Ok ax' -> ax' = set_xlim lo hi ax.
Proof.
  unfold ax_set_xlim, call. destruct (mpl_raises _); [discriminate |].
  intros [= <-]. reflexivity.
Qed.

Lemma ax_set_ylim_Ok (on : axes_name) (lo hi : Q) (ax ax' : Axes) :
  ax_set_ylim on lo hi ax = Ok ax' -> ax' = set_ylim lo hi ax.
Proof.
  unfold ax_set_ylim, call. destruct (mpl_raises _); [discriminate |].
  intros [= <-]. reflexivity.
Qed.

Lemma ax_plot_Ok (on : axes_name) (xs ys : list Q) (o : gmap string pyval)
    (ax ax' : Axes) :
  ax_plot on xs ys o ax = Ok ax' ->
  length xs = length ys /\ ax' = draw (plot xs ys o) ax.
Proof.
  unfold ax_plot. destruct (decide _); [| discriminate].
  intros H. apply ax_draw_Ok in H. auto.
Qed.

Lemma ax_plot_same_length (on : axes_name) (xs ys : list Q)
    (o : gmap string pyval) (ax : Axes) :
  length xs = length ys ->
  ax_plot on xs ys o ax = ax_draw on (plot xs ys o) ax.
Proof.
  intros H. unfold ax_plot. destruct (decide _); [reflexivity | contradiction].
Qed.

(** What the calls on an axes raise comes from matplotlib; [plot] also
    has its own [ValueError] for sequences of different lengths. *)
Section Only.

Variable P : exn -> Prop.
Hypothesis HP : forall e, from_matplotlib e -> P e.

Lemma ax_imshow_only (i : Image) (ax : Axes) : raises_only P (ax_imshow i ax).
Proof.
  unfold ax_imshow. apply raises_only_bind; [apply call_only, HP |].
  intros; exact I.
Qed.

Lemma ax_set_xlabel_only (on : axes_name) (s : string) (ax : Axes) :
  raises_only P (ax_set_xlabel on s ax).
Proof.
  unfold ax_set_xlabel. apply raises_only_bind; [apply call_only, HP |].
  intros; exact I.
Qed.

Lemma ax_set_ylabel_only (on : axes_name) (s : string) (ax : Axes) :
  raises_only P (ax_set_ylabel on s ax).
Proof.
  unfold ax_set_ylabel. apply raises_only_bind; [apply call_only, HP |].
  intros; exact I.
Qed.

Lemma ax_draw_only (on : axes_name) (a : artist) (ax : Axes) :
  raises_only P (ax_draw on a ax).
Proof.
  unfold ax_draw. apply raises_only_bind; [apply call_only, HP |].
  intros; exact I.
Qed.

Lemma ax_set_xlim_only (on : axes_name) (lo hi : Q) (ax : Axes) :
  raises_only P (ax_set_xlim on lo hi ax).
Proof.
  unfold ax_set_xlim. apply raises_only_bind; [apply call_only, HP |].
  intros; exact I.
Qed.

Lemma ax_set_ylim_only (on : axes_name) (lo hi : Q) (ax : Axes) :
  raises_only P (ax_set_ylim on lo hi ax).
Proof.
  unfold ax_set_ylim. apply raises_only_bind; [apply call_only, HP |].
  intros; exact I.
Qed.

Lemma ax_plot_only (on : axes_name) (xs ys : list Q) (o : gmap string pyval)
    (ax : Axes) :
  (length xs <> length ys ->
   P (ValueError (shape_mismatch (length xs) (length ys)))) ->
  raises_only P (ax_plot on xs ys o ax).
Proof.
  intros Hv. unfold ax_plot.
  destruct (decide _); [apply ax_draw_only | simpl; auto].
Qed.

Lemma main_panel_only (self : Plot2D) (kw : kwargs) (a0 : Axes) :
  raises_only P (main_panel self kw a0).
Proof.
  unfold main_panel.
  apply raises_only_bind; [apply ax_imshow_only | intros a1 _].
  apply raises_only_bind; [apply ax_set_xlabel_only | intros a2 _].
  apply raises_only_bind; [apply ax_set_ylabel_only | intros a3 _].
  exact I.
Qed.

Lemma finish_only (self : Plot2D) (p : panels) : raises_only P (finish self p).
Proof.
  unfold finish. destruct p as [[[[[[g i] a0] ah] av] ws] hs].
  apply raises_only_bind; [apply ax_draw_only | intros a1 _].
  destruct (cbar self); [| exact I].
  apply raises_only_bind; [apply call_only, HP | intros u _].
  apply raises_only_bind; [apply ax_draw_only | intros a2 _].
  exact I.
Qed.

End Only.

Lemma main_panel_Ok (self : Plot2D) (kw : kwargs) (a0 a : Axes) (i : Image) :
  main_panel self kw a0 = Ok (i, a) ->
  i = the_image self kw /\
  a = set_ylabel (ly (label self))
        (set_xlabel (lx (label self)) (set_image (the_image self kw) a0)).
Proof.
  unfold main_panel. intros H.
  ok_step H a1 E1. apply ax_imshow_Ok in E1 as ->.
  ok_step H a2 E2. apply ax_set_xlabel_Ok in E2 as ->.
  ok_step H a3 E3. apply ax_set_ylabel_Ok in E3 as ->.
  injection H as <- <-. split; reflexivity.
Qed.

(** With the calls accepted, the main panel is made. *)
Lemma main_panel_accepted (self : Plot2D) (kw : kwargs) (a0 : Axes) :
  mpl_raises (call_imshow (the_image self kw)) = None ->
  mpl_raises (call_set_xlabel Ax0 (lx (label self))) = None ->
  mpl_raises (call_set_ylabel Ax0 (ly (label self))) = None ->
  main_panel self kw a0 =
  Ok (the_image self kw,
      set_ylabel (ly (label self))
        (set_xlabel (lx (label self)) (set_image (the_image self kw) a0))).
Proof.
  intros H1 H2 H3. unfold main_panel, ax_imshow, ax_set_xlabel, ax_set_ylabel.
  fold (the_image self kw).
  rewrite (call_accepted _ H1), (call_accepted _ H2), (call_accepted _ H3).
  reflexivity.
Qed.

Lemma draw_main_only_Ok (self : Plot2D) (kw : kwargs) (p : panels) :
  draw_main_only self kw = Ok p ->
  p = ({| nrows := 1; ncols := 1;
          height_ratios := [1%Z]; width_ratios := [1%Z] |},
       the_image self kw, main_axes self kw (0, 0) [],
       None, None, None, None).
Proof.
  unfold draw_main_only. intros H.
  ok_step H ia Em. destruct ia as [i a0].
  apply main_panel_Ok in Em as [-> ->]. injection H as <-. reflexivity.
Qed.

Lemma draw_with_hslice_Ok (self : Plot2D) (kw : kwargs)
    (o : gmap string pyval) (hi : nat) (p : panels) :
  draw_with_hslice self kw o hi = Ok p ->
  exists y x3 y3 c r,
    v_axis self !! hi = Some y /\
    np.getitem (h_axis self) 3%Z = Ok x3 /\
    np.getitem (v_axis self) (Z.of_nat hi + 3)%Z = Ok y3 /\
    o !! "color" = Some c /\
    data self !! hi = Some r /\
    length (h_axis self) = length r /\
    p = ({| nrows := 2; ncols := 1;
            height_ratios := [1%Z; 3%Z]; width_ratios := [1%Z] |},
         the_image self kw,
         main_axes self kw (1, 0) [axhline y o; annotate y (x3, y3) c None],
         Some (hslice_axes self o r), None, None, Some (3 # 100)%Q).
Proof.
  unfold draw_with_hslice, np.row. intros H.
  ok_step H ia Em. destruct ia as [i a0].
  apply main_panel_Ok in Em as [-> ->].
  ok_step H y Ey. ok_step H a1 E1. apply ax_draw_Ok in E1 as ->.
  ok_step H y' Ey'. ok_step H x3 Ex3. ok_step H y3 Ey3.
  ok_step H c Ec. ok_step H a2 E2. apply ax_draw_Ok in E2 as ->.
  ok_step H ah1 Eh1. apply ax_set_ylabel_Ok in Eh1 as ->.
  ok_step H r Er. ok_step H ah2 Eh2. apply ax_plot_Ok in Eh2 as [Hlen ->].
  ok_step H ah3 Eh3. apply ax_set_ylim_Ok in Eh3 as ->.
  injection H as <-.
  rewrite Ey in Ey'. injection Ey' as <-.
  rewrite getitem_nat in Ey. rewrite getitem_nat in Er.
  lookup_inv Ey Hy. lookup_inv Er Hr.
  apply dict_getitem_Ok in Ec.
  exists y, x3, y3, c, r. repeat (split; [assumption || reflexivity |]).
  reflexivity.
Qed.

Lemma draw_with_vslice_Ok (self : Plot2D) (kw : kwargs)
    (o : gmap string pyval) (vi : nat) (p : panels) :
  draw_with_vslice self kw o vi = Ok p ->
  exists x x40 y40 c cl,
    h_axis self !! vi = Some x /\
    np.getitem (h_axis self) (Z.of_nat vi - 40)%Z = Ok x40 /\
    np.getitem (v_axis self) (-40)%Z = Ok y40 /\
    o !! "color" = Some c /\
    np.col (data self) (Z.of_nat vi) = Ok cl /\
    length cl = length (v_axis self) /\
    p = ({| nrows := 1; ncols := 2;
            height_ratios := [1%Z]; width_ratios := [3%Z; 1%Z] |},
         the_image self kw,
         main_axes self kw (0, 0)
           [axvline x o; annotate x (x40, y40) c (Some "vertical")],
         None, Some (vslice_axes self o (0, 1) cl), Some (3 # 100)%Q, None).
Proof.
  unfold draw_with_vslice. intros H.
  ok_step H ia Em. destruct ia as [i a0].
  apply main_panel_Ok in Em as [-> ->].
  ok_step H x Ex. ok_step H a1 E1. apply ax_draw_Ok in E1 as ->.
  ok_step H x' Ex'. ok_step H x40 Ex40. ok_step H y40 Ey40.
  ok_step H c Ec. ok_step H a2 E2. apply ax_draw_Ok in E2 as ->.
  ok_step H av1 Ev1. apply ax_set_xlabel_Ok in Ev1 as ->.
  ok_step H cl Ecl. ok_step H av2 Ev2. apply ax_plot_Ok in Ev2 as [Hlen ->].
  ok_step H av3 Ev3. apply ax_set_xlim_Ok in Ev3 as ->.
  injection H as <-.
  rewrite Ex in Ex'. injection Ex' as <-.
  rewrite getitem_nat in Ex. lookup_inv Ex Hx.
  apply dict_getitem_Ok in Ec.
  exists x, x40, y40, c, cl. repeat (split; [assumption || reflexivity |]).
  reflexivity.
Qed.

Lemma draw_with_both_Ok (self : Plot2D) (kw : kwargs)
    (ho vo : gmap string pyval) (hi vi : nat) (p : panels) :
  draw_with_both self kw ho vo hi vi = Ok p ->
  exists y x x3 y3 hc x40 y40 vc r cl,
    v_axis self !! hi = Some y /\
    h_axis self !! vi = Some x /\
    np.getitem (h_axis self) 3%Z = Ok x3 /\
    np.getitem (v_axis self) (Z.of_nat hi + 3)%Z = Ok y3 /\
    ho !! "color" = Some hc /\
    np.getitem (h_axis self) (Z.of_nat vi - 40)%Z = Ok x40 /\
    np.getitem (v_axis self) (-40)%Z = Ok y40 /\
    vo !! "color" = Some vc /\
    data self !! hi = Some r /\
    length (h_axis self) = length r /\
    np.col (data self) (Z.of_nat vi) = Ok cl /\
    length cl = length (v_axis self) /\
    p = ({| nrows := 2; ncols := 2;
            height_ratios := [1%Z; 3%Z]; width_ratios := [3%Z; 1%Z] |},
         the_image self kw,
         main_axes self kw (1, 0)
           [axhline y ho; axvline x vo;
            annotate y (x3, y3) hc None;
            annotate x (x40, y40) vc (Some "vertical")],
         Some (hslice_axes self ho r), Some (vslice_axes self vo (1, 1) cl),
         Some (3 # 100)%Q, Some (3 # 100)%Q).
Proof.
  unfold draw_with_both, np.row. intros H.
  ok_step H ia Em. destruct ia as [i a0].
  apply main_panel_Ok in Em as [-> ->].
  ok_step H y Ey. ok_step H a1 E1. apply ax_draw_Ok in E1 as ->.
  ok_step H x Ex. ok_step H a2 E2. apply ax_draw_Ok in E2 as ->.
  ok_step H y' Ey'. ok_step H x3 Ex3. ok_step H y3 Ey3. ok_step H hc Ehc.
  ok_step H a3 E3. apply ax_draw_Ok in E3 as ->.
  ok_step H x' Ex'. ok_step H x40 Ex40. ok_step H y40 Ey40. ok_step H vc Evc.
  ok_step H a4 E4. apply ax_draw_Ok in E4 as ->.
  ok_step H ah1 Eh1. apply ax_set_ylabel_Ok in Eh1 as ->.
  ok_step H r Er. ok_step H ah2 Eh2. apply ax_plot_Ok in Eh2 as [Hlenh ->].
  ok_step H ah3 Eh3. apply ax_set_ylim_Ok in Eh3 as ->.
  ok_step H av1 Ev1. apply ax_set_xlabel_Ok in Ev1 as ->.
  ok_step H cl Ecl. ok_step H av2 Ev2. apply ax_plot_Ok in Ev2 as [Hlenv ->].
  ok_step H av3 Ev3. apply ax_set_xlim_Ok in Ev3 as ->.
  injection H as <-.
  rewrite Ey in Ey'. injection Ey' as <-.
  rewrite Ex in Ex'. injection Ex' as <-.
  rewrite getitem_nat in Ey. lookup_inv Ey Hy.
  rewrite getitem_nat in Ex. lookup_inv Ex Hx.
  rewrite getitem_nat in Er. lookup_inv Er Hr.
  apply dict_getitem_Ok in Ehc. apply dict_getitem_Ok in Evc.
  exists y, x, x3, y3, hc, x40, y40, vc, r, cl.
  repeat (split; [assumption || reflexivity |]).
  reflexivity.
Qed.

(** A figure that [finish] returns is the figure of the panels. *)
Lemma finish_Ok (self : Plot2D) (p : panels) (fig : Figure) :
  finish self p = Ok fig -> fig = the_figure self p.
Proof.
  unfold finish, the_figure. destruct p as [[[[[[g i] a0] ah] av] ws] hs].
  intros H. ok_step H a1 E1. apply ax_draw_Ok in E1 as ->.
  destruct (cbar self).
  - ok_step H u Eu. ok_step H a2 E2. apply ax_draw_Ok in E2 as ->.
    injection H as <-. reflexivity.
  - injection H as <-. reflexivity.
Qed.

End Calls.

(** The four ways in which [draw_fig] returns a figure. *)
Ltac draw_cases Hf :=
  let p := fresh "p" in
  let Ep := fresh "Ep" in
  unfold draw_fig in Hf; ok_step Hf p Ep; apply finish_Ok in Hf as ->;
  match type of Ep with
  | match hslice_idx ?self with _ => _ end = _ =>
      destruct (hslice_idx self) as [hi|] eqn:Hhi;
      destruct (vslice_idx self) as [vi|] eqn:Hvi;
      [ apply draw_with_both_Ok in Ep
          as (y & x & x3 & y3 & hc & x40 & y40 & vc & r & cl & Hy & Hx & Hx3
              & Hy3 & Hhc & Hx40 & Hy40 & Hvc & Hr & Hlr & Hcl & Hlc & ->)
      | apply draw_with_hslice_Ok in Ep
          as (y & x3 & y3 & hc & r & Hy & Hx3 & Hy3 & Hhc & Hr & Hlr & ->)
      | apply draw_with_vslice_Ok in Ep
          as (x & x40 & y40 & vc & cl & Hx & Hx40 & Hy40 & Hvc & Hcl & Hlc & ->)
      | apply draw_main_only_Ok in Ep as -> ]
  end.

(** ** Where the annotations make [draw_fig] raise *)

(** One more call of a layout branch: it raises as [P] says, or returns. *)
Ltac outcome_step :=
  first
    [ apply fails_bind
    | apply raises_only_bind ];
  [ first [ apply getitem_only
          | apply col_only
          | apply main_panel_only
          | apply ax_draw_only
          | apply ax_set_xlabel_only
          | apply ax_set_ylabel_only
          | apply ax_set_xlim_only
          | apply ax_set_ylim_only
          | apply ax_plot_only
          | apply call_only
          | rewrite color_total; exact I ];
    simpl; auto; try (intros; congruence)
  | intros ? _ ].

Section Annotations.

Context {mpl : matplotlib}.

Lemma with_hslice_raises (self : Plot2D) (kw : kwargs)
    (o : gmap string pyval) (hi : nat) :
  length (v_axis self) <= hi + 3 \/ length (h_axis self) < 4 ->
  fails index_or_matplotlib (draw_with_hslice self kw (update slice_opts o) hi).
Proof.
  intros H. unfold draw_with_hslice, index_or_matplotlib.
  destruct H as [H | H].
  - rewrite (getitem_beyond (v_axis self) (Z.of_nat hi + 3)) by lia.
    outcome_step. destruct a as [i a0]. do 4 outcome_step. left. exact I.
  - rewrite (getitem_beyond (h_axis self) 3) by lia.
    outcome_step. destruct a as [i a0]. do 3 outcome_step. left. exact I.
Qed.


Lemma with_both_raises (self : Plot2D) (kw : kwargs)
    (ho vo : gmap string pyval) (hi vi : nat) :
  length (v_axis self) <= hi + 3 \/ length (h_axis self) < 4 \/
  length (v_axis self) < 40 \/ length (h_axis self) + vi < 40 ->
  fails index_or_matplotlib
    (draw_with_both self kw (update slice_opts ho) (update slice_opts vo) hi vi).
Proof.
  intros H. unfold draw_with_both, index_or_matplotlib.
  destruct H as [H | [H | [H | H]]].
  - rewrite (getitem_beyond (v_axis self) (Z.of_nat hi + 3)) by lia.
    outcome_step. destruct a as [i a0]. do 6 outcome_step. left. exact I.
  - rewrite (getitem_beyond (h_axis self) 3) by lia.
    outcome_step. destruct a as [i a0]. do 5 outcome_step. left. exact I.
  - rewrite (getitem_below (v_axis self) (-40)) by lia.
    outcome_step. destruct a as [i a0]. do 11 outcome_step. left. exact I.
  - rewrite (getitem_below (h_axis self) (Z.of_nat vi - 40)) by lia.
    outcome_step. destruct a as [i a0]. do 10 outcome_step. left. exact I.
Qed.

Lemma draw_fig_hslice_raises (self : Plot2D) (kw : kwargs) (hi : nat) :
  hslice_idx self = Some hi ->
  length (v_axis self) <= hi + 3 \/ length (h_axis self) < 4 ->
  fails index_or_matplotlib (draw_fig self kw).
Proof.
  intros Hh H. unfold draw_fig. rewrite Hh.
  destruct (vslice_idx self) as [vi|].
  - pose proof (with_both_raises self kw (get (kw_hslice_opts kw) ∅)
                  (get (kw_vslice_opts kw) ∅) hi vi ltac:(tauto)) as Hr.
    destruct (draw_with_both _ _ _ _ _ _); [contradiction | exact Hr].
  - pose proof (with_hslice_raises self kw (get (kw_hslice_opts kw) ∅) hi H)
      as Hr.
    destruct (draw_with_hslice _ _ _ _); [contradiction | exact Hr].
Qed.


End Annotations.

(** ** What [__init__] assigns *)


Lemma slice_idx_lt (a : list Q) (val : option Q) (o : option nat) (k : nat) :
  slice_idx a val = Ok o -> o = Some k -> k < length a.
Proof.
  destruct val as [v|]; simpl.
  - destruct (idx_from_val a v) eqn:E; [| discriminate].
    intros [= <-] [= ->]. eapply idx_from_val_lt, E.
  - intros [= <-]. discriminate.
Qed.

Lemma slice_idx_nearest (a : list Q) (val : option Q) (o : option nat) :
  slice_idx a val = Ok o ->
  match val with
  | Some x0 =>
      exists i x, idx_from_val a x0 = Ok i /\ o = Some i /\
        a !! i = Some x /\ nearest x0 a i (Qabs (x - x0))
  | None => o = None
  end.
Proof.
  destruct val as [x0|]; simpl; [| intros [= <-]; reflexivity].
  destruct (idx_from_val a x0) as [i|] eqn:E; [| discriminate].
  intros [= <-]. destruct (idx_from_val_nearest _ _ _ E) as (x & Hx & Hn).
  exists i, x. auto.
Qed.

(** The window can only fail at the first reduction of an axis without
    elements. *)
Lemma crop_window_Raise (h v : list Q) (kw : kwargs) (e : exn) :
  crop_window h v kw = Raise e -> e = ValueError (np.zero_size "minimum").
Proof.
  unfold crop_window.
  destruct h as [|x0 h]; [intros [= <-]; reflexivity |].
  destruct v as [|y0 v]; [intros [= <-]; reflexivity |].
  cbn [np.min np.max mbind result_bind].
  destruct (get (kw_extent kw) _) as [[[xmin xmax] ymin] ymax].
  cbn [idx_from_val mbind result_bind]. discriminate.
Qed.

Lemma crop_window_Ok (h v : list Q) (kw : kwargs)
    (xmin xmax ymin ymax : Q) (i0 i1 j0 j1 : nat) :
  crop_window h v kw = Ok (xmin, xmax, ymin, ymax, (i0, i1, j0, j1)) ->
  idx_from_val h xmin = Ok i0 /\ idx_from_val h xmax = Ok i1 /\
  idx_from_val v ymin = Ok j0 /\ idx_from_val v ymax = Ok j1 /\
  exists hmin hmax vmin0 vmax0,
    np.min h = Ok hmin /\ np.max h = Ok hmax /\
    np.min v = Ok vmin0 /\ np.max v = Ok vmax0 /\
    (xmin, xmax, ymin, ymax) = get (kw_extent kw) (hmin, hmax, vmin0, vmax0).
Proof.
  unfold crop_window. intros H.
  ok_step H hmin Ehmin. ok_step H hmax Ehmax.
  ok_step H vmin0 Evmin. ok_step H vmax0 Evmax.
  destruct (get (kw_extent kw) (hmin, hmax, vmin0, vmax0))
    as [[[xmin' xmax'] ymin'] ymax'] eqn:Eext.
  ok_step H i0' Ei0. ok_step H i1' Ei1. ok_step H j0' Ej0. ok_step H j1' Ej1.
  injection H as <- <- <- <- <- <- <- <-.
  repeat (split; [assumption |]).
  exists hmin, hmax, vmin0, vmax0. auto.
Qed.


(** The attributes of an object whose construction got as far as the
    figure. *)
Lemma init_attrs_Ok (arr : np.ndarray2) (h v : list Q) (xl yl zl : string)
    (kw : kwargs) (self : Plot2D) :
  init_attrs arr h v xl yl zl kw = Ok self ->
  exists i0 i1 j0 j1,
    crop_window h v kw = Ok (extent self, (i0, i1, j0, j1)) /\
    data self = np.slice2 j0 j1 i0 i1 arr /\
    h_axis self = np.slice i0 i1 h /\
    v_axis self = np.slice j0 j1 v /\
    np.amin (data self) = Ok (min_data self) /\
    np.amax (data self) = Ok (max_data self) /\
    vmin self = get (kw_vmin kw) (min_data self) /\
    vmax self = get (kw_vmax kw) (max_data self) /\
    slice_idx (v_axis self) (kw_hslice_val kw) = Ok (hslice_idx self) /\
    slice_idx (h_axis self) (kw_vslice_val kw) = Ok (vslice_idx self) /\
    cbar self = get (kw_cbar kw) true /\
    text self = get (kw_text kw) "".
Proof.
  unfold init_attrs. intros H.
  ok_step H w Ew. destruct w as [ext [[[i0 i1] j0] j1]].
  ok_step H mn Emn. ok_step H mx Emx. ok_step H hi Ehi. ok_step H vi Evi.
  injection H as <-. simpl.
  exists i0, i1, j0, j1. repeat (split; [assumption || reflexivity |]).
  reflexivity.
Qed.


(** A crop without elements stops the constructor at [np.amin]. *)
Lemma init_attrs_empty_crop (arr : np.ndarray2) (h v : list Q)
    (xl yl zl : string) (kw : kwargs) :
  (forall ext i0 i1 j0 j1,
     crop_window h v kw = Ok (ext, (i0, i1, j0, j1)) ->
     concat (np.slice2 j0 j1 i0 i1 arr) = []) ->
  init_attrs arr h v xl yl zl kw = Raise (ValueError (np.zero_size "minimum")).
Proof.
  intros H. unfold init_attrs.
  destruct (crop_window h v kw) as [[ext [[[i0 i1] j0] j1]] | e] eqn:E.
  - simpl. unfold np.amin. rewrite (H _ _ _ _ _ eq_refl). reflexivity.
  - apply crop_window_Raise in E. subst. reflexivity.
Qed.

Lemma min_Ok (a : list Q) : a <> [] -> exists m, np.min a = Ok m.
Proof. destruct a; [congruence | eexists; reflexivity]. Qed.

Lemma max_Ok (a : list Q) : a <> [] -> exists m, np.max a = Ok m.
Proof. destruct a; [congruence | eexists; reflexivity]. Qed.


(** ** Outcomes of the construction *)

Section Construction.

Context {mpl : matplotlib}.

Lemma init_raises (arr : np.ndarray2) (h v : list Q) (xl yl zl : string)
    (kw : kwargs) (e : exn) :
  init_attrs arr h v xl yl zl kw = Raise e ->
  __init__ arr h v xl yl zl kw = Raise e.
Proof. intros H. unfold __init__. rewrite H. reflexivity. Qed.

Lemma init_Ok (arr : np.ndarray2) (h v : list Q) (xl yl zl : string)
    (kw : kwargs) (self : Plot2D) (fig : Figure) :
  __init__ arr h v xl yl zl kw = Ok (self, fig) ->
  init_attrs arr h v xl yl zl kw = Ok self /\ draw_fig self kw = Ok fig.
Proof.
  unfold __init__. intros H.
  ok_step H s Es. ok_step H u1 E1. ok_step H u2 E2. ok_step H f Ef.
  injection H as <- <-. auto.
Qed.

(** Once the attributes are assigned the construction is the creation of
    the figure and of its canvas, and the drawing. *)
Lemma init_drawing (arr : np.ndarray2) (h v : list Q) (xl yl zl : string)
    (kw : kwargs) (self : Plot2D) :
  init_attrs arr h v xl yl zl kw = Ok self ->
  __init__ arr h v xl yl zl kw =
  (call (call_Figure (figsize self));;
   call (call_FigureCanvas (figsize self));;
   fig ← draw_fig self kw; Ok (self, fig)).
Proof. intros H. unfold __init__. rewrite H. reflexivity. Qed.

(** What the construction makes of an outcome of the drawing. *)
Lemma init_only (P : exn -> Prop) (arr : np.ndarray2) (h v : list Q)
    (xl yl zl : string) (kw : kwargs) (self : Plot2D) :
  (forall e, from_matplotlib e -> P e) ->
  init_attrs arr h v xl yl zl kw = Ok self ->
  raises_only P (draw_fig self kw) ->
  raises_only P (__init__ arr h v xl yl zl kw).
Proof.
  intros HP Hs Hd. rewrite (init_drawing _ _ _ _ _ _ _ _ Hs).
  apply raises_only_bind; [apply call_only, HP | intros u1 _].
  apply raises_only_bind; [apply call_only, HP | intros u2 _].
  apply raises_only_bind; [exact Hd | intros fig _]. exact I.
Qed.

Lemma init_fails (P : exn -> Prop) (arr : np.ndarray2) (h v : list Q)
    (xl yl zl : string) (kw : kwargs) (self : Plot2D) :
  (forall e, from_matplotlib e -> P e) ->
  init_attrs arr h v xl yl zl kw = Ok self ->
  fails P (draw_fig self kw) ->
  fails P (__init__ arr h v xl yl zl kw).
Proof.
  intros HP Hs Hd. rewrite (init_drawing _ _ _ _ _ _ _ _ Hs).
  apply fails_bind; [apply call_only, HP | intros u1 _].
  apply fails_bind; [apply call_only, HP | intros u2 _].
  destruct (draw_fig self kw); [contradiction | exact Hd].
Qed.

(** The drawing of an object without slice indices raises nothing of its
    own. *)
Lemma draw_fig_without_slices (self : Plot2D) (kw : kwargs) :
  hslice_idx self = None -> vslice_idx self = None ->
  raises_only from_matplotlib (draw_fig self kw).
Proof.
  intros Hh Hv. unfold draw_fig. rewrite Hh, Hv.
  apply raises_only_bind; [| intros p _; apply finish_only; auto].
  unfold draw_main_only.
  apply raises_only_bind; [apply main_panel_only; auto |].
  intros [i a0] _. exact I.
Qed.


End Construction.

(** ** The default extent *)

Lemma slice_from_0 {A : Type} (n : nat) (a : list A) :
  np.slice 0 n a = take n a.
Proof. unfold np.slice. rewrite Nat.sub_0_r. reflexivity. Qed.

Lemma increasing_slice (i j : nat) (a : list Q) :
  increasing a -> increasing (np.slice i j a).
Proof.
  intros Hinc k l x y Hk Hl Hkl. unfold np.slice in Hk, Hl.
  apply lookup_take_Some in Hk as [Hk _]. apply lookup_take_Some in Hl as [Hl _].
  rewrite lookup_drop in Hk, Hl.
  apply (Hinc (i + k) (i + l) x y Hk Hl). lia.
Qed.

(** With increasing axes and no [extent] among the options, the crop keeps
    all of the axes and of the array but the last element, row and column:
    the upper index of each half-open slice is the index of the maximum. *)
Lemma default_extent_crop (arr : np.ndarray2) (h v : list Q)
    (xl yl zl : string) (kw : kwargs) (self : Plot2D) :
  increasing h -> increasing v -> kw_extent kw = None ->
  init_attrs arr h v xl yl zl kw = Ok self ->
  h_axis self = take (length h - 1) h /\
  v_axis self = take (length v - 1) v /\
  data self = take (length h - 1) <$> take (length v - 1) arr.
Proof.
  intros Hh Hv Hkw Hs.
  apply init_attrs_Ok in Hs
    as (i0 & i1 & j0 & j1 & Hw & Hd & Hha & Hva & _).
  destruct (extent self) as [[[xmin xmax] ymin] ymax].
  apply crop_window_Ok in Hw
    as (Hi0 & Hi1 & Hj0 & Hj1 & hmin & hmax & vmin0 & vmax0
        & Hhmin & Hhmax & Hvmin & Hvmax & Hext).
  rewrite Hkw in Hext. injection Hext as -> -> -> ->.
  destruct (default_window h hmin hmax Hh Hhmin Hhmax) as [E0 E1].
  destruct (default_window v vmin0 vmax0 Hv Hvmin Hvmax) as [F0 F1].
  rewrite E0 in Hi0. rewrite E1 in Hi1. rewrite F0 in Hj0. rewrite F1 in Hj1.
  injection Hi0 as <-. injection Hi1 as <-.
  injection Hj0 as <-. injection Hj1 as <-.
  rewrite Hha, Hva, Hd. unfold np.slice2. rewrite !slice_from_0.
  repeat split. apply list_fmap_ext. intros _ row _. apply slice_from_0.
Qed.

(** With an increasing vertical axis, a horizontal slice requested at or
    above the top of the cropped axis resolves to its last index, and the
    construction raises [IndexError] at the annotation, three elements
    further up. *)
Lemma hslice_above_axis_raises {mpl : matplotlib} (arr : np.ndarray2)
    (h v : list Q) (xl yl zl : string) (kw : kwargs) (self : Plot2D) (y0 : Q) :
  init_attrs arr h v xl yl zl kw = Ok self ->
  kw_hslice_val kw = Some y0 ->
  increasing v ->
  Forall (fun y => (y <= y0)%Q) (v_axis self) ->
  hslice_idx self = Some (length (v_axis self) - 1) /\
  fails index_or_matplotlib (__init__ arr h v xl yl zl kw).
Proof.
  intros Hs Hy0 Hv Hall.
  pose proof Hs as Hinit.
  apply init_attrs_Ok in Hs
    as (i0 & i1 & j0 & j1 & _ & _ & _ & Hva & _ & _ & _ & _ & Hhi & _).
  assert (Hinc : increasing (v_axis self))
    by (rewrite Hva; apply increasing_slice, Hv).
  rewrite Hy0 in Hhi. apply slice_idx_nearest in Hhi
    as (i & y & Hi & Hidx & Hy & _).
  pose proof (idx_from_val_lt _ _ _ Hi) as Hlt.
  assert (Hl : is_Some (v_axis self !! (length (v_axis self) - 1)))
    by (apply lookup_lt_is_Some_2; lia).
  destruct Hl as [yl' Hl].
  rewrite (clamp_high _ y0 yl' Hinc Hl) in Hi.
  - injection Hi as <-. split; [exact Hidx |].
    apply (init_fails _ _ _ _ _ _ _ _ self); [right; assumption | exact Hinit |].
    apply (draw_fig_hslice_raises self kw _ Hidx). left. lia.
  - rewrite Forall_forall in Hall. apply Hall.
    eapply list_elem_of_lookup_2, Hl.
Qed.

(** The construction of an object without slice indices returns the
    object and the figure of the main panel, unless matplotlib raises. *)
Lemma init_without_slices {mpl : matplotlib} (arr : np.ndarray2)
    (h v : list Q) (xl yl zl : string) (kw : kwargs) (self : Plot2D) :
  init_attrs arr h v xl yl zl kw = Ok self ->
  hslice_idx self = None -> vslice_idx self = None ->
  match __init__ arr h v xl yl zl kw with
  | Ok (s, fig) =>
      s = self /\
      fig = the_figure self
              ({| nrows := 1; ncols := 1;
                  height_ratios := [1%Z]; width_ratios := [1%Z] |},
               the_image self kw, main_axes self kw (0, 0) [],
               None, None, None, None)
  | Raise e => from_matplotlib e
  end.
Proof.
  intros Hs Hh Hv.
  pose proof (init_only from_matplotlib _ _ _ _ _ _ _ _ (fun e H => H) Hs
                (draw_fig_without_slices self kw Hh Hv)) as Hout.
  destruct (__init__ arr h v xl yl zl kw) as [[s fig]|e] eqn:E; [| exact Hout].
  clear Hout. apply init_Ok in E as [Hs' Hf]. rewrite Hs in Hs'.
  injection Hs' as <-. split; [reflexivity |].
  draw_cases Hf; try discriminate. reflexivity.
Qed.

(** On the 4x4 array the summary of the object reports the extent
    (0, 2, 0, 2) of the cropped axes, while the extent stored and handed to
    [imshow] as the bounding box of the data is (0, 3, 0, 3). *)
Lemma summary_disagrees_with_extent {mpl : matplotlib} :
  match __init__ (grid 4) (axis 4) (axis 4) "" "" "" no_kwargs with
  | Ok (self, fig) =>
      extent self = (0, 3, 0, 3)%Q /\ im_extent (im fig) = (0, 3, 0, 3)%Q /\
      __str__ self = Ok (0, 2, 0, 2, 0, 10)%Q
  | Raise e => from_matplotlib e
  end.
Proof.
  eassert (Hs : init_attrs (grid 4) (axis 4) (axis 4) "" "" "" no_kwargs = Ok _)
    by (vm_compute; reflexivity).
  pose proof (init_without_slices _ _ _ _ _ _ _ _ Hs eq_refl eq_refl) as H.
  destruct (__init__ _ _ _ _ _ _ _) as [[s fig]|e]; [| exact H].
  destruct H as [-> ->]. vm_compute. repeat split.
Qed.

(** C1.  Code defect: with the extent left to its default on the 4x4 array
    of [row * 4 + col] and the axes [0, 1, 2, 3], the half-open slices
    [ymin_idx:ymax_idx] and [xmin_idx:xmax_idx] of line 66 stop before the
    index of the maximum, so the stored data are the 3x3 block without the
    last row and column, both axes are [0, 1, 2], and the upper color bound
    is 10; the originals and the bound 15 are not kept.  This is the object
    that the construction returns with a matplotlib that raises on no call,
    and with any matplotlib unless it raises. *)
Theorem default_extent_drops_last_row_and_column {mpl : matplotlib} :
  match __init__ (mpl := accepting) (grid 4) (axis 4) (axis 4) "" "" ""
          no_kwargs with
  | Ok (self, fig) =>
      data self = [ints [0; 1; 2]; ints [4; 5; 6]; ints [8; 9; 10]]%Z /\
      h_axis self = ints [0; 1; 2]%Z /\
      v_axis self = ints [0; 1; 2]%Z /\
      vmin self = 0%Q /\ vmax self = 10%Q /\
      data self <> grid 4 /\ h_axis self <> axis 4 /\ v_axis self <> axis 4
  | Raise _ => False
  end /\
  match __init__ (grid 4) (axis 4) (axis 4) "" "" "" no_kwargs with
  | Ok (self, fig) =>
      data self = [ints [0; 1; 2]; ints [4; 5; 6]; ints [8; 9; 10]]%Z /\
      h_axis self = ints [0; 1; 2]%Z /\
      v_axis self = ints [0; 1; 2]%Z /\
      vmin self = 0%Q /\ vmax self = 10%Q /\
      data self <> grid 4 /\ h_axis self <> axis 4 /\ v_axis self <> axis 4
  | Raise e => from_matplotlib e
  end.
Proof.
  split; [vm_compute; repeat split; discriminate |].
  eassert (Hs : init_attrs (grid 4) (axis 4) (axis 4) "" "" "" no_kwargs = Ok _)
    by (vm_compute; reflexivity).
  pose proof (init_without_slices _ _ _ _ _ _ _ _ Hs eq_refl eq_refl) as H.
  destruct (__init__ _ _ _ _ _ _ _) as [[s fig]|e]; [| exact H].
  destruct H as [-> _]. vm_compute. repeat split; discriminate.
Qed.

(** C2.  Code defect: on the same array, [hslice_val=100] resolves against
    the cropped vertical axis [0, 1, 2] to the index 2, and [draw_fig] then
    raises [IndexError] when it places the annotation at [h_axis[3]],
    [v_axis[hslice_idx + 3]]: the construction does not end with the line
    at the boundary.  With a matplotlib that raises on no call the error is
    that of [h_axis[3]]; with any matplotlib the construction fails, with an
    [IndexError] unless matplotlib has raised before the annotation. *)
Theorem out_of_range_hslice_raises {mpl : matplotlib} :
  match init_attrs (grid 4) (axis 4) (axis 4) "" "" ""
          (with_hslice_val 100 no_kwargs) with
  | Ok self => v_axis self = ints [0; 1; 2]%Z /\ hslice_idx self = Some 2
  | Raise _ => False
  end /\
  __init__ (mpl := accepting) (grid 4) (axis 4) (axis 4) "" "" ""
    (with_hslice_val 100 no_kwargs)
  = Raise (IndexError "index 3 is out of bounds for axis 0 with size 3") /\
  fails index_or_matplotlib
    (__init__ (grid 4) (axis 4) (axis 4) "" "" ""
       (with_hslice_val 100 no_kwargs)).
Proof.
  split; [vm_compute; repeat split |]. split; [vm_compute; reflexivity |].
  eassert (Hs : init_attrs (grid 4) (axis 4) (axis 4) "" "" ""
                  (with_hslice_val 100 no_kwargs) = Ok _)
    by (vm_compute; reflexivity).
  apply (init_fails _ _ _ _ _ _ _ _ _ (fun e H => or_intror H) Hs).
  match type of Hs with
  | _ = Ok ?s => apply (draw_fig_hslice_raises s _ 2 eq_refl)
  end.
  left. vm_compute. lia.
Qed.

(** ** Input validation *)







(** ** Color-scale bounds *)

(** C4.  When the construction succeeds, the bounds that were not given
    are the minimum and the maximum of the stored, cropped data (an element
    of the data that no element is below, or above), a given [vmin] or
    [vmax] replaces its own default only, and these are the bounds handed
    to [imshow]. *)
Theorem color_bounds_default_to_cropped_data {mpl : matplotlib} (arr : np.ndarray2)
    (h v : list Q) (xl yl zl : string) (kw : kwargs)
    (self : Plot2D) (fig : Figure) :
  __init__ arr h v xl yl zl kw = Ok (self, fig) ->
  exists mn mx,
    (In mn (concat (data self)) /\
     Forall (fun x => (mn <= x)%Q) (concat (data self))) /\
    (In mx (concat (data self)) /\
     Forall (fun x => (x <= mx)%Q) (concat (data self))) /\
    vmin self = match kw_vmin kw with Some lo => lo | None => mn end /\
    vmax self = match kw_vmax kw with Some hi => hi | None => mx end /\
    im_vmin (im fig) = vmin self /\ im_vmax (im fig) = vmax self.
Proof.
  intros H. apply init_Ok in H as [Hs Hf].
  apply init_attrs_Ok in Hs
    as (i0 & i1 & j0 & j1 & _ & _ & _ & _ & Hmn & Hmx & Hvmin & Hvmax & _).
  exists (min_data self), (max_data self).
  split; [apply min_spec, Hmn |]. split; [apply max_spec, Hmx |].
  split; [exact Hvmin |]. split; [exact Hvmax |].
  draw_cases Hf; unfold the_figure; destruct (cbar self); auto.
Qed.

Lemma color_bounds_default_to_cropped_data_witness :
  exists self fig,
    __init__ (mpl := accepting) (grid 4) (axis 4) (axis 4) "" "" "" no_kwargs = Ok (self, fig) /\
    np.amax (grid 4) = Ok 15%Q /\ vmax self = 10%Q /\
    exists mn mx,
      (In mn (concat (data self)) /\
       Forall (fun x => (mn <= x)%Q) (concat (data self))) /\
      (In mx (concat (data self)) /\
       Forall (fun x => (x <= mx)%Q) (concat (data self))) /\
      vmin self = match kw_vmin no_kwargs with Some lo => lo | None => mn end /\
      vmax self = match kw_vmax no_kwargs with Some hi => hi | None => mx end /\
      im_vmin (im fig) = vmin self /\ im_vmax (im fig) = vmax self.
Proof.
  eexists _, _. split; [vm_compute; reflexivity |].
  split; [reflexivity |]. split; [reflexivity |].
  apply (color_bounds_default_to_cropped_data (mpl := accepting)
           (grid 4) (axis 4) (axis 4) "" "" "" no_kwargs).
  vm_compute. reflexivity.
Defined.

(** ** Layout *)

Lemma finish_proj (self : Plot2D) (g : GridSpec) (i : Image) (a0 : Axes)
    (ah av : option Axes) (ws hs : option Q) :
  let fig := the_figure self (g, i, a0, ah, av, ws, hs) in
  gs fig = g /\ im fig = i /\ axh fig = ah /\ axv fig = av /\
  wspace fig = ws /\ hspace fig = hs /\
  cell (ax0 fig) = cell a0 /\ image (ax0 fig) = image a0 /\
  sharex (ax0 fig) = sharex a0 /\ sharey (ax0 fig) = sharey a0 /\
  exists tail, artists (ax0 fig) = artists a0 ++ tail /\
    Forall (fun a => exists x y s c, a = axes_text x y s c) tail.
Proof.
  unfold the_figure. destruct (cbar self); simpl; repeat (split; [reflexivity |]).
  - eexists. split; [rewrite <- app_assoc; reflexivity |].
    repeat constructor; eexists _, _, _, _; reflexivity.
  - eexists. split; [reflexivity |].
    repeat constructor; eexists _, _, _, _; reflexivity.
Qed.



(** ** Slice indices *)

Lemma slice2_shape (r c : nat) (r0 r1 c0 c1 : nat) (d : np.ndarray2)
    (h v : list Q) :
  length v = r -> length h = c -> np.shape2 r c d ->
  np.shape2 (length (np.slice r0 r1 v)) (length (np.slice c0 c1 h))
    (np.slice2 r0 r1 c0 c1 d).
Proof.
  intros Hv Hh [Hr Hc]. unfold np.slice2. split.
  - rewrite length_fmap, !length_slice. rewrite Hr, Hv. reflexivity.
  - apply Forall_fmap. eapply Forall_impl.
    + unfold np.slice. apply Forall_take, Forall_drop, Hc.
    + intros row Hrow. simpl. rewrite !length_slice, Hrow, Hh. reflexivity.
Qed.

(** C6.  Once the attributes are assigned, the index of a requested
    horizontal slice is the nearest-index lookup of the coordinate in the
    cropped vertical axis, that of a requested vertical slice the lookup in
    the cropped horizontal axis; without a request the index is absent.  An
    index that is present is below the length of its cropped axis, and when
    the array has as many rows and columns as the axes have elements, it
    selects a row, or a column, of the cropped data. *)
Theorem slice_indices_on_cropped_axes (arr : np.ndarray2) (h v : list Q)
    (xl yl zl : string) (kw : kwargs) (self : Plot2D) :
  init_attrs arr h v xl yl zl kw = Ok self ->
  match kw_hslice_val kw with
  | Some y0 =>
      exists i y, idx_from_val (v_axis self) y0 = Ok i /\
        hslice_idx self = Some i /\ v_axis self !! i = Some y /\
        nearest y0 (v_axis self) i (Qabs (y - y0))
  | None => hslice_idx self = None
  end /\
  match kw_vslice_val kw with
  | Some x0 =>
      exists j x, idx_from_val (h_axis self) x0 = Ok j /\
        vslice_idx self = Some j /\ h_axis self !! j = Some x /\
        nearest x0 (h_axis self) j (Qabs (x - x0))
  | None => vslice_idx self = None
  end /\
  (forall i, hslice_idx self = Some i -> i < length (v_axis self)) /\
  (forall j, vslice_idx self = Some j -> j < length (h_axis self)) /\
  (np.shape2 (length v) (length h) arr ->
   (forall i, hslice_idx self = Some i -> is_Some (data self !! i)) /\
   (forall j, vslice_idx self = Some j ->
      Forall (fun row => is_Some (row !! j)) (data self))).
Proof.
  intros H. apply init_attrs_Ok in H
    as (i0 & i1 & j0 & j1 & _ & Hd & Hh & Hv & _ & _ & _ & _ & Hhi & Hvi & _).
  split; [exact (slice_idx_nearest _ _ _ Hhi) |].
  split; [exact (slice_idx_nearest _ _ _ Hvi) |].
  split; [intros i; exact (slice_idx_lt _ _ _ i Hhi) |].
  split; [intros j; exact (slice_idx_lt _ _ _ j Hvi) |].
  intros Hshape.
  assert (Hs : np.shape2 (length (v_axis self)) (length (h_axis self))
                 (data self)).
  { rewrite Hd, Hh, Hv.
    apply (slice2_shape (length v) (length h)); auto. }
  destruct Hs as [Hrows Hcols]. split.
  - intros i Hi. apply lookup_lt_is_Some. rewrite Hrows.
    exact (slice_idx_lt _ _ _ i Hhi Hi).
  - intros j Hj. eapply Forall_impl; [exact Hcols |].
    intros row Hrow. apply lookup_lt_is_Some. simpl in Hrow. rewrite Hrow.
    exact (slice_idx_lt _ _ _ j Hvi Hj).
Qed.

Lemma slice_indices_on_cropped_axes_witness :
  exists self,
    init_attrs (grid 8) (axis 8) (axis 8) "" "" ""
      (with_hslice_val 2 (with_vslice_val 100 no_kwargs)) = Ok self /\
    hslice_idx self = Some 2 /\ vslice_idx self = Some 6 /\
    (forall i, hslice_idx self = Some i -> i < length (v_axis self)) /\
    (forall j, vslice_idx self = Some j -> j < length (h_axis self)).
Proof.
  eexists. split; [vm_compute; reflexivity |].
  split; [reflexivity |]. split; [reflexivity |].
  match goal with
  | |- context [v_axis ?s] =>
      destruct (slice_indices_on_cropped_axes (grid 8) (axis 8) (axis 8)
                  "" "" ""
                  (with_hslice_val 2 (with_vslice_val 100 no_kwargs)) s)
        as (_ & _ & Hi & Hj & _)
  end.
  - vm_compute. reflexivity.
  - split; [exact Hi | exact Hj].
Defined.

(** ** Degenerate crop *)



(** C7, as stated, fails: the error of a degenerate crop does not describe
    it.  A window that runs backwards on the 4x4 array and a proper window
    on an array without rows end in the same exception, that of numpy's
    reduction, with the same message. *)
Lemma degenerate_crop_error_is_generic :
  crop_window (axis 4) (axis 4) (with_extent (3, 1, 0, 3)%Q no_kwargs)
  = Ok ((3, 1, 0, 3)%Q, (3, 1, 0, 3)) /\
  crop_window (axis 4) (axis 4) no_kwargs
  = Ok ((0, 3, 0, 3)%Q, (0, 3, 0, 3)) /\
  __init__ (mpl := accepting) (grid 4) (axis 4) (axis 4) "" "" ""
    (with_extent (3, 1, 0, 3)%Q no_kwargs)
  = Raise (ValueError
             "zero-size array to reduction operation minimum which has no identity") /\
  __init__ (mpl := accepting) [] (axis 4) (axis 4) "" "" "" no_kwargs
  = Raise (ValueError
             "zero-size array to reduction operation minimum which has no identity").
Proof. repeat split. Qed.

(** ** The color-scale bounds and the data *)





(** C8, as stated, fails: the bounds do not affect the color range alone.
    On the 8x8 array with a horizontal slice, the panel of the slice has the
    limits (0, 54) of the data without the options and the limits (5, 6)
    with [vmin=5, vmax=6], on the same stored data. *)
Lemma color_bounds_set_slice_limits :
  match __init__ (mpl := accepting) (grid 8) (axis 8) (axis 8) "" "" ""
          (with_hslice_val 2 no_kwargs),
        __init__ (mpl := accepting) (grid 8) (axis 8) (axis 8) "" "" ""
          (with_vrange (Some 5%Q) (Some 6%Q) (with_hslice_val 2 no_kwargs))
  with
  | Ok (s1, f1), Ok (s2, f2) =>
      data s2 = data s1 /\
      (ylim <$> axh f1) = Some (Some (0, 54)%Q) /\
      (ylim <$> axh f2) = Some (Some (5, 6)%Q) /\
      (artists <$> axh f2) = (artists <$> axh f1)
  | _, _ => False
  end.
Proof. vm_compute. repeat split. Qed.

(** ** Slice line styles *)

Lemma update_color (o : option (gmap string pyval)) :
  update slice_opts (get o ∅) !! "color" = Some (slice_color o).
Proof.
  unfold update, slice_color. rewrite lookup_union.
  destruct o as [d|]; simpl; [| reflexivity].
  destruct (d !! "color"); reflexivity.
Qed.

(** C9, as it holds.  The two slice lines have the same default color,
    ["firebrick"]: each line, its annotation and its curve take the color
    from the options given for that slice, [hslice_opts] or [vslice_opts],
    and ["firebrick"] when these are absent or have no color; a horizontal
    slice index has its line drawn, and so has a vertical one. *)
Theorem slice_colors {mpl : matplotlib} (self : Plot2D) (kw : kwargs) (fig : Figure) :
  draw_fig self kw = Ok fig ->
  slice_color None = Str "firebrick" /\
  Forall (styled (slice_color (kw_hslice_opts kw))
                 (slice_color (kw_vslice_opts kw))) (artists (ax0 fig)) /\
  (forall ah, axh fig = Some ah ->
     Forall (curve (slice_color (kw_hslice_opts kw))) (artists ah)) /\
  (forall av, axv fig = Some av ->
     Forall (curve (slice_color (kw_vslice_opts kw))) (artists av)) /\
  (is_Some (hslice_idx self) <->
   existsb is_axhline (artists (ax0 fig)) = true) /\
  (is_Some (vslice_idx self) <->
   existsb is_axvline (artists (ax0 fig)) = true).
Proof.
  intros Hf. split; [reflexivity |].
  draw_cases Hf;
    try (rewrite update_color in Hhc; injection Hhc as <-);
    try (rewrite update_color in Hvc; injection Hvc as <-);
    match goal with
    | |- context [the_figure ?s (?g, ?i, ?a0, ?ah, ?av, ?ws, ?hs)] =>
        destruct (finish_proj s g i a0 ah av ws hs)
          as (_ & _ & Hah & Hav & _ & _ & _ & _ & _ & _ & tl & Harts & Htl)
    end;
    rewrite Harts, Hah, Hav; cbn [artists main_axes].
  all: split;
    [ apply Forall_app; split;
      [ repeat constructor; simpl; auto using update_color
      | eapply Forall_impl; [exact Htl |];
        intros a (? & ? & ? & ? & ->); exact I ] |].
  all: split; [intros ? [= <-]; repeat constructor; apply update_color
              || intros ? [=] |].
  all: split; [intros ? [= <-]; repeat constructor; apply update_color
              || intros ? [=] |].
  all: rewrite !existsb_app; cbn [existsb is_axhline is_axvline orb].
  all: assert (Ht : forall f, (forall x y s c, f (axes_text x y s c) = false) ->
                 existsb f tl = false)
    by (intros f Hfalse; clear - Htl Hfalse;
        induction Htl as [|a l (? & ? & ? & ? & ->) _ IH];
        [reflexivity | simpl; rewrite Hfalse, IH; reflexivity]).
  all: rewrite ?(Ht is_axhline), ?(Ht is_axvline) by reflexivity.
  all: split; split; intros H; try eauto; try discriminate H;
    try (destruct H as [? [=]]).
Qed.

Lemma slice_colors_witness :
  exists self fig,
    init_attrs (grid 44) (axis 44) (axis 44) "" "" ""
      (with_slice_opts None (Some blue_opts) both_slices) = Ok self /\
    draw_fig (mpl := accepting) self (with_slice_opts None (Some blue_opts) both_slices) = Ok fig /\
    Forall (styled (Str "firebrick") (Str "blue")) (artists (ax0 fig)) /\
    existsb is_axhline (artists (ax0 fig)) = true /\
    existsb is_axvline (artists (ax0 fig)) = true.
Proof.
  eexists _, _. split; [vm_compute; reflexivity |].
  match goal with
  | |- draw_fig ?s ?k = Ok ?f /\ _ =>
      assert (Hd : draw_fig (mpl := accepting) s k = Ok f) by (vm_compute; reflexivity);
      destruct (slice_colors (mpl := accepting) s k f Hd)
        as (_ & Hstyled & _ & _ & [Hh _] & [Hv _])
  end.
  split; [exact Hd |]. split; [exact Hstyled |].
  split; [apply Hh | apply Hv]; eexists; reflexivity.
Defined.

(** C9, as stated, fails: without slice options the vertical line of a
    figure with both slices has the color of the horizontal one,
    ["firebrick"], not a color of its own. *)
Lemma default_slice_colors_coincide :
  match __init__ (mpl := accepting) (grid 44) (axis 44) (axis 44) "" "" "" both_slices with
  | Ok (self, fig) =>
      omap hline_color (artists (ax0 fig)) = [Str "firebrick"] /\
      omap vline_color (artists (ax0 fig)) = [Str "firebrick"]
  | Raise _ => False
  end.
Proof. vm_compute. split; reflexivity. Qed.

(** ** The annotation offsets *)







(** * Further properties of the code *)

(** ** Indexing that succeeds *)










(** ** When a figure is built *)




(** ** The slice panels *)

Ltac finish_facts :=
  match goal with
  | |- context [the_figure ?s (?g, ?i, ?a0, ?ah, ?av, ?ws, ?hs)] =>
      destruct (finish_proj s g i a0 ah av ws hs)
        as (Hg & Hi & Hah & Hav & Hws & Hhs & Hc & Him & _ & _
            & tl & Harts & Htl)
  end.

(** X2.  In a figure that [draw_fig] returns for an object with a horizontal
    slice index [hi], the panel above the main one plots the row [hi] of
    the cropped data against the whole cropped horizontal axis, with the
    value axis limited to [vmin], [vmax] and labelled with the z label, its
    x axis hidden, no margin and only the left spine left; the main panel
    has the reference line at [v_axis[hi]], which is also the number that the
    annotation prints; the vertical spacing of the grid is 0.03.  Without
    the index there is no such panel and no vertical spacing is set. *)
Theorem horizontal_strip {mpl : matplotlib} (self : Plot2D) (kw : kwargs) (fig : Figure) :
  draw_fig self kw = Ok fig ->
  let o := update slice_opts (get (kw_hslice_opts kw) ∅) in
  match hslice_idx self with
  | Some hi =>
      exists y r,
        v_axis self !! hi = Some y /\ data self !! hi = Some r /\
        axh fig = Some (hslice_axes self o r) /\
        In (axhline y o) (artists (ax0 fig)) /\
        (exists xy c, In (annotate y xy c None) (artists (ax0 fig))) /\
        hspace fig = Some (3 # 100)%Q
  | None => axh fig = None /\ hspace fig = None
  end.
Proof.
  intros Hf o. subst o. draw_cases Hf; finish_facts;
    rewrite ?Harts, ?Hah, ?Hhs; cbn [artists main_axes].
  - exists y, r. repeat (split; [assumption || reflexivity |]).
    split; [apply in_or_app; left; simpl; tauto |].
    split; [| reflexivity].
    exists (x3, y3), hc. apply in_or_app. left. simpl. tauto.
  - exists y, r. repeat (split; [assumption || reflexivity |]).
    split; [apply in_or_app; left; simpl; tauto |].
    split; [| reflexivity].
    exists (x3, y3), hc. apply in_or_app. left. simpl. tauto.
  - split; reflexivity.
  - split; reflexivity.
Qed.

Lemma horizontal_strip_witness :
  exists self fig,
    init_attrs (grid 8) (axis 8) (axis 8) "" "" ""
      (with_hslice_val 2 no_kwargs) = Ok self /\
    draw_fig (mpl := accepting) self (with_hslice_val 2 no_kwargs) = Ok fig /\
    hslice_idx self = Some 2 /\
    exists r,
      data self !! 2 = Some r /\
      r = ints [16; 17; 18; 19; 20; 21; 22]%Z /\
      axh fig = Some (hslice_axes self (update slice_opts ∅) r).
Proof.
  eexists _, _. split; [vm_compute; reflexivity |].
  match goal with
  | |- draw_fig ?s ?k = Ok ?f /\ _ =>
      assert (Hd : draw_fig (mpl := accepting) s k = Ok f) by (vm_compute; reflexivity);
      pose proof (horizontal_strip (mpl := accepting) s k f Hd) as H
  end.
  split; [exact Hd |]. split; [reflexivity |].
  cbn [hslice_idx] in H. destruct H as (y & r & _ & Hr & Hah & _).
  exists r. split; [exact Hr |]. split; [| exact Hah].
  vm_compute in Hr. injection Hr as <-. reflexivity.
Defined.

(** X3.  In a figure that [draw_fig] returns for an object with a vertical
    slice index [vi], the panel right of the main one plots the cropped
    vertical axis against the column [vi] of the cropped data, with the
    value axis limited to [vmin], [vmax] and labelled with the z label, its
    y axis hidden, no margin and only the bottom spine left; it is in the
    lower right cell when there is a horizontal slice too; the main panel
    has the reference line at [h_axis[vi]], which is also the number that the
    annotation prints; the horizontal spacing of the grid is 0.03.  Without
    the index there is no such panel and no horizontal spacing is set. *)
Theorem vertical_strip {mpl : matplotlib} (self : Plot2D) (kw : kwargs) (fig : Figure) :
  draw_fig self kw = Ok fig ->
  let o := update slice_opts (get (kw_vslice_opts kw) ∅) in
  match vslice_idx self with
  | Some vi =>
      exists x cl,
        h_axis self !! vi = Some x /\
        np.col (data self) (Z.of_nat vi) = Ok cl /\
        length cl = length (v_axis self) /\
        axv fig = Some (vslice_axes self o
                          (if is_none (hslice_idx self) then (0, 1) else (1, 1))
                          cl) /\
        In (axvline x o) (artists (ax0 fig)) /\
        (exists xy c,
           In (annotate x xy c (Some "vertical")) (artists (ax0 fig))) /\
        wspace fig = Some (3 # 100)%Q
  | None => axv fig = None /\ wspace fig = None
  end.
Proof.
  intros Hf o. subst o. draw_cases Hf; finish_facts;
    rewrite ?Harts, ?Hav, ?Hws; cbn [artists main_axes is_none].
  - exists x, cl. repeat (split; [assumption || reflexivity |]).
    split; [apply in_or_app; left; simpl; tauto |].
    split; [| reflexivity].
    exists (x40, y40), vc. apply in_or_app. left. simpl. tauto.
  - split; reflexivity.
  - exists x, cl. repeat (split; [assumption || reflexivity |]).
    split; [apply in_or_app; left; simpl; tauto |].
    split; [| reflexivity].
    exists (x40, y40), vc. apply in_or_app. left. simpl. tauto.
  - split; reflexivity.
Qed.

Lemma vertical_strip_witness :
  exists self fig,
    init_attrs (grid 44) (axis 44) (axis 44) "" "" "" both_slices = Ok self /\
    draw_fig (mpl := accepting) self both_slices = Ok fig /\
    vslice_idx self = Some 5 /\
    exists cl,
      np.col (data self) 5%Z = Ok cl /\
      axv fig = Some (vslice_axes self (update slice_opts ∅) (1, 1) cl).
Proof.
  eexists _, _. split; [vm_compute; reflexivity |].
  match goal with
  | |- draw_fig ?s ?k = Ok ?f /\ _ =>
      assert (Hd : draw_fig (mpl := accepting) s k = Ok f) by (vm_compute; reflexivity);
      pose proof (vertical_strip (mpl := accepting) s k f Hd) as H
  end.
  split; [exact Hd |]. split; [reflexivity |].
  cbn [vslice_idx hslice_idx is_none] in H.
  destruct H as (x & cl & _ & Hcl & _ & Hav & _).
  exists cl. split; [exact Hcl | exact Hav].
Defined.

(** ** The main panel *)

Lemma init_attrs_labels (arr : np.ndarray2) (h v : list Q)
    (xl yl zl : string) (kw : kwargs) (self : Plot2D) :
  init_attrs arr h v xl yl zl kw = Ok self ->
  label self = {| lx := xl; ly := yl; lz := zl |} /\
  norm self = kw_norm kw /\
  hslice_val self = kw_hslice_val kw /\ vslice_val self = kw_vslice_val kw /\
  figsize self = get (kw_figsize kw) (8, 8)%Q.
Proof.
  unfold init_attrs. intros H.
  ok_step H w Ew. destruct w as [ext [[[i0 i1] j0] j1]].
  ok_step H mn Emn. ok_step H mx Emx. ok_step H hi Ehi. ok_step H vi Evi.
  injection H as <-. repeat split.
Qed.

Lemma finish_tail (self : Plot2D) (g : GridSpec) (i : Image) (a0 : Axes)
    (ah av : option Axes) (ws hs : option Q) :
  let fig := the_figure self (g, i, a0, ah, av, ws, hs) in
  artists (ax0 fig) =
    artists a0 ++
    axes_text (1 # 50) (1 # 50) (text self) "firebrick" ::
    (if cbar self
     then [axes_text (37 # 50) (97 # 100) (lz (label self)) "firebrick"]
     else []) /\
  inset_colorbar fig = (if cbar self then Some the_colorbar else None) /\
  xlabel (ax0 fig) = xlabel a0 /\ ylabel (ax0 fig) = ylabel a0 /\
  xlim (ax0 fig) = xlim a0 /\ ylim (ax0 fig) = ylim a0 /\
  hidden_spines (ax0 fig) = hidden_spines a0.
Proof.
  unfold the_figure. destruct (cbar self); simpl; repeat split.
  rewrite <- app_assoc. reflexivity.
Qed.

(** X4.  Whatever the layout, the main panel of a constructed object shows
    the cropped data as an image with origin ["lower"], the color bounds of
    the object and the color map given (["viridis"] by default), over the
    extent as it was requested: the [extent] option itself when there is
    one, and otherwise the least and greatest elements of the axes as they
    were passed, not those of the cropped axes.  The main panel carries the
    x and y labels, and its limits and spines are left alone. *)
Theorem main_panel_image {mpl : matplotlib} (arr : np.ndarray2) (h v : list Q)
    (xl yl zl : string) (kw : kwargs) (self : Plot2D) (fig : Figure) :
  __init__ arr h v xl yl zl kw = Ok (self, fig) ->
  im fig = the_image self kw /\ image (ax0 fig) = Some (im fig) /\
  im_data (im fig) = data self /\
  match kw_extent kw with
  | Some e => im_extent (im fig) = e
  | None =>
      exists hmin hmax vmin0 vmax0,
        np.min h = Ok hmin /\ np.max h = Ok hmax /\
        np.min v = Ok vmin0 /\ np.max v = Ok vmax0 /\
        im_extent (im fig) = (hmin, hmax, vmin0, vmax0)
  end /\
  im_cmap (im fig) = get (kw_cmap kw) "viridis" /\
  im_norm (im fig) = kw_norm kw /\
  xlabel (ax0 fig) = xl /\ ylabel (ax0 fig) = yl /\
  xlim (ax0 fig) = None /\ ylim (ax0 fig) = None /\
  hidden_spines (ax0 fig) = [].
Proof.
  intros H. apply init_Ok in H as [Hs Hf].
  destruct (init_attrs_labels _ _ _ _ _ _ _ _ Hs) as (Hl & Hn & _).
  apply init_attrs_Ok in Hs as (i0 & i1 & j0 & j1 & Hw & _).
  assert (Hext : match kw_extent kw with
                 | Some e => extent self = e
                 | None =>
                     exists hmin hmax vmin0 vmax0,
                       np.min h = Ok hmin /\ np.max h = Ok hmax /\
                       np.min v = Ok vmin0 /\ np.max v = Ok vmax0 /\
                       extent self = (hmin, hmax, vmin0, vmax0)
                 end).
  { destruct (extent self) as [[[xmin xmax] ymin] ymax].
    apply crop_window_Ok in Hw
      as (_ & _ & _ & _ & hmin & hmax & vmin0 & vmax0
          & Hhmin & Hhmax & Hvmin & Hvmax & Hext).
    destruct (kw_extent kw) as [e|]; [exact Hext |].
    exists hmin, hmax, vmin0, vmax0. auto. }
  assert (Him : im fig = the_image self kw /\
                image (ax0 fig) = Some (the_image self kw) /\
                xlabel (ax0 fig) = lx (label self) /\
                ylabel (ax0 fig) = ly (label self) /\
                xlim (ax0 fig) = None /\ ylim (ax0 fig) = None /\
                hidden_spines (ax0 fig) = []).
  { draw_cases Hf;
      match goal with
      | |- context [the_figure ?s (?g, ?i, ?a0, ?ah, ?av, ?ws, ?hs)] =>
          destruct (finish_proj s g i a0 ah av ws hs)
            as (_ & Hi & _ & _ & _ & _ & _ & Him & _);
          destruct (finish_tail s g i a0 ah av ws hs)
            as (_ & _ & Hxl & Hyl & Hxlim & Hylim & Hsp)
      end;
      rewrite Hi, Him, Hxl, Hyl, Hxlim, Hylim, Hsp; repeat split. }
  destruct Him as (Hi & Hima & Hxl & Hyl & Hxlim & Hylim & Hsp).
  rewrite Hi, Hima, Hxl, Hyl, Hl, Hxlim, Hylim, Hsp.
  cbn [the_image im_data im_extent im_cmap im_norm lx ly]. rewrite Hn.
  split; [reflexivity |]. split; [reflexivity |]. split; [reflexivity |].
  split; [exact Hext |]. repeat split.
Qed.

Lemma main_panel_image_witness :
  exists self fig,
    __init__ (mpl := accepting) (grid 8) (axis 8) (axis 8) "x" "y" "z"
      (with_extent (2, 5, 1, 6)%Q no_kwargs) = Ok (self, fig) /\
    im_extent (im fig) = (2, 5, 1, 6)%Q /\
    h_axis self = ints [2; 3; 4]%Z /\
    xlabel (ax0 fig) = "x" /\ ylabel (ax0 fig) = "y".
Proof.
  eexists _, _.
  match goal with
  | |- ?i = Ok (?s, ?f) /\ _ =>
      assert (H : i = Ok (s, f)) by (vm_compute; reflexivity);
      pose proof (main_panel_image (mpl := accepting) _ _ _ _ _ _ _ _ _ H) as Hm
  end.
  split; [exact H |].
  destruct Hm as (_ & _ & _ & He & _ & _ & Hx & Hy & _).
  split; [exact He |]. split; [reflexivity |]. split; [exact Hx | exact Hy].
Defined.

(** ** The caption and the colorbar *)

(** X5.  On the main panel of a constructed object the caption, the [text]
    option or the empty string, is always drawn, at (0.02, 0.02) in
    ["firebrick"], after everything that belongs to the slices.  The inset
    colorbar is made exactly when the [cbar] option is absent or true, and
    only then is the z label written on the main panel, at (0.74, 0.97),
    after the caption. *)
Theorem caption_and_colorbar {mpl : matplotlib} (arr : np.ndarray2) (h v : list Q)
    (xl yl zl : string) (kw : kwargs) (self : Plot2D) (fig : Figure) :
  __init__ arr h v xl yl zl kw = Ok (self, fig) ->
  exists slices,
    existsb is_text slices = false /\
    artists (ax0 fig) =
      slices ++
      axes_text (1 # 50) (1 # 50) (get (kw_text kw) "") "firebrick" ::
      (if get (kw_cbar kw) true
       then [axes_text (37 # 50) (97 # 100) zl "firebrick"]
       else []) /\
    inset_colorbar fig =
      (if get (kw_cbar kw) true then Some the_colorbar else None).
Proof.
  intros H. apply init_Ok in H as [Hs Hf].
  destruct (init_attrs_labels _ _ _ _ _ _ _ _ Hs) as (Hl & _).
  apply init_attrs_Ok in Hs
    as (i0 & i1 & j0 & j1 & _ & _ & _ & _ & _ & _ & _ & _ & _ & _ & Hcb & Htx).
  draw_cases Hf;
    match goal with
    | |- context [the_figure ?s (?g, ?i, ?a0, ?ah, ?av, ?ws, ?hs)] =>
        destruct (finish_tail s g i a0 ah av ws hs) as (Harts & Hcbar & _);
        exists (artists a0)
    end;
    rewrite Harts, Hcbar, Hcb, Htx, Hl; cbn [lz artists main_axes];
    repeat split.
Qed.

Lemma caption_and_colorbar_witness :
  exists self fig,
    __init__ (mpl := accepting) (grid 8) (axis 8) (axis 8) "x" "y" "z"
      (with_hslice_val 2 no_kwargs) = Ok (self, fig) /\
    existsb is_text (artists (ax0 fig)) = true /\
    inset_colorbar fig = Some the_colorbar.
Proof.
  eexists _, _.
  match goal with
  | |- ?i = Ok (?s, ?f) /\ _ =>
      assert (H : i = Ok (s, f)) by (vm_compute; reflexivity);
      destruct (caption_and_colorbar (mpl := accepting) _ _ _ _ _ _ _ _ _ H)
        as (slices & _ & Harts & Hcb)
  end.
  split; [exact H |]. split; [| exact Hcb].
  rewrite Harts, existsb_app. simpl. apply orb_true_r.
Defined.

(** ** The crop *)

Lemma lookup_slice_Some {A : Type} (i j k : nat) (a : list A) (x : A) :
  np.slice i j a !! k = Some x -> a !! (i + k) = Some x.
Proof.
  unfold np.slice. intros H. apply lookup_take_Some in H as [H _].
  rewrite lookup_drop in H. exact H.
Qed.

(** X6.  The crop shifts the axes and the array by the same offsets: the
    element [c] of the cropped horizontal axis is the element [i0 + c] of
    the axis passed, the element [r] of the cropped vertical axis the
    element [j0 + r], and the datum in row [r] and column [c] of the
    cropped data is the one in row [j0 + r] and column [i0 + c] of the array
    passed, where [i0] and [j0] are the indices that the lower bounds of
    the extent resolve to.  Every coordinate keeps its values. *)
Theorem crop_keeps_alignment (arr : np.ndarray2) (h v : list Q)
    (xl yl zl : string) (kw : kwargs) (self : Plot2D) :
  init_attrs arr h v xl yl zl kw = Ok self ->
  exists i0 j0,
    idx_from_val h (extent self).1.1.1 = Ok i0 /\
    idx_from_val v (extent self).1.2 = Ok j0 /\
    (forall c x, h_axis self !! c = Some x -> h !! (i0 + c) = Some x) /\
    (forall r y, v_axis self !! r = Some y -> v !! (j0 + r) = Some y) /\
    (forall r c row z,
       data self !! r = Some row -> row !! c = Some z ->
       exists full, arr !! (j0 + r) = Some full /\ full !! (i0 + c) = Some z).
Proof.
  intros H. apply init_attrs_Ok in H
    as (i0 & i1 & j0 & j1 & Hw & Hd & Hh & Hv & _).
  destruct (extent self) as [[[xmin xmax] ymin] ymax].
  apply crop_window_Ok in Hw as (Hi0 & _ & Hj0 & _).
  exists i0, j0. split; [exact Hi0 |]. split; [exact Hj0 |].
  rewrite Hh, Hv, Hd. split; [| split].
  - intros c x. apply lookup_slice_Some.
  - intros r y. apply lookup_slice_Some.
  - intros r c row z Hrow Hz. unfold np.slice2 in Hrow.
    apply list_lookup_fmap_Some in Hrow as (full & -> & Hfull).
    exists full. split.
    + eapply lookup_slice_Some, Hfull.
    + eapply lookup_slice_Some, Hz.
Qed.

Lemma crop_keeps_alignment_witness :
  exists self,
    init_attrs (grid 8) (axis 8) (axis 8) "" "" ""
      (with_extent (2, 5, 1, 6)%Q no_kwargs) = Ok self /\
    data self !! 0 = Some (ints [10; 11; 12]%Z) /\
    exists i0 j0,
      (forall c x, h_axis self !! c = Some x -> axis 8 !! (i0 + c) = Some x) /\
      (forall r c row z,
         data self !! r = Some row -> row !! c = Some z ->
         exists full, grid 8 !! (j0 + r) = Some full /\
                      full !! (i0 + c) = Some z).
Proof.
  eexists.
  match goal with
  | |- ?i = Ok ?s /\ _ =>
      assert (Hs : i = Ok s) by (vm_compute; reflexivity);
      destruct (crop_keeps_alignment _ _ _ _ _ _ _ _ Hs)
        as (i0 & j0 & _ & _ & Hh & _ & Hd)
  end.
  split; [exact Hs |]. split; [reflexivity |].
  exists i0, j0. split; [exact Hh | exact Hd].
Defined.

Lemma window_of_covering_extent (a : list Q) (lo hi : Q) :
  increasing a -> a <> [] ->
  Forall (fun x => (lo <= x)%Q /\ (x <= hi)%Q) a ->
  idx_from_val a lo = Ok 0 /\ idx_from_val a hi = Ok (length a - 1).
Proof.
  intros Hinc Hne Hall. rewrite Forall_forall in Hall.
  destruct a as [|x0 a]; [congruence |].
  assert (Hl : is_Some ((x0 :: a) !! (length (x0 :: a) - 1)))
    by (apply lookup_lt_is_Some_2; simpl; lia).
  destruct Hl as [xl Hl]. split.
  - apply (clamp_low _ _ x0 Hinc eq_refl). apply Hall. left.
  - apply (clamp_high _ _ xl Hinc Hl). apply Hall.
    eapply list_elem_of_lookup_2, Hl.
Qed.

(** The extent of an object lies around both axes when it was left out,
    as it does when the option given covers them. *)
Lemma covering_extent_bounds (arr : np.ndarray2) (h v : list Q)
    (xl yl zl : string) (kw : kwargs) (self : Plot2D) :
  covers kw h v ->
  init_attrs arr h v xl yl zl kw = Ok self ->
  h <> [] /\ v <> [] /\
  Forall (fun x => ((extent self).1.1.1 <= x)%Q /\
                   (x <= (extent self).1.1.2)%Q) h /\
  Forall (fun y => ((extent self).1.2 <= y)%Q /\ (y <= (extent self).2)%Q) v.
Proof.
  intros Hcov Hs.
  apply init_attrs_Ok in Hs as (i0 & i1 & j0 & j1 & Hw & _).
  destruct (extent self) as [[[xmin xmax] ymin] ymax].
  apply crop_window_Ok in Hw
    as (_ & _ & _ & _ & hmin & hmax & vmin0 & vmax0
        & Hhmin & Hhmax & Hvmin & Hvmax & Hext).
  split; [intros ->; discriminate Hhmin |].
  split; [intros ->; discriminate Hvmin |].
  unfold covers in Hcov. destruct (kw_extent kw) as [e|]; simpl in Hext.
  - subst e. exact Hcov.
  - injection Hext as -> -> -> ->.
    apply min_spec in Hhmin as [_ Hhmin]. apply max_spec in Hhmax as [_ Hhmax].
    apply min_spec in Hvmin as [_ Hvmin]. apply max_spec in Hvmax as [_ Hvmax].
    rewrite Forall_forall in Hhmin, Hhmax, Hvmin, Hvmax.
    split; apply Forall_forall; intros x Hx; split; auto.
Qed.

Lemma covering_extent_crop (arr : np.ndarray2) (h v : list Q)
    (xl yl zl : string) (kw : kwargs) (self : Plot2D) :
  increasing h -> increasing v -> covers kw h v ->
  init_attrs arr h v xl yl zl kw = Ok self ->
  h_axis self = take (length h - 1) h /\
  v_axis self = take (length v - 1) v /\
  data self = take (length h - 1) <$> take (length v - 1) arr.
Proof.
  intros Hh Hv Hcov Hs.
  destruct (covering_extent_bounds _ _ _ _ _ _ _ _ Hcov Hs)
    as (Hhne & Hvne & Hallh & Hallv).
  apply init_attrs_Ok in Hs
    as (i0 & i1 & j0 & j1 & Hw & Hd & Hha & Hva & _).
  destruct (extent self) as [[[xmin xmax] ymin] ymax].
  apply crop_window_Ok in Hw as (Hi0 & Hi1 & Hj0 & Hj1 & _).
  destruct (window_of_covering_extent h xmin xmax Hh Hhne Hallh) as [E0 E1].
  destruct (window_of_covering_extent v ymin ymax Hv Hvne Hallv) as [F0 F1].
  rewrite E0 in Hi0. rewrite E1 in Hi1. rewrite F0 in Hj0. rewrite F1 in Hj1.
  injection Hi0 as <-. injection Hi1 as <-.
  injection Hj0 as <-. injection Hj1 as <-.
  rewrite Hha, Hva, Hd. unfold np.slice2. rewrite !slice_from_0.
  split; [reflexivity |]. split; [reflexivity |].
  apply list_fmap_ext. intros _ row _. apply slice_from_0.
Qed.

(** X7.  With increasing axes, an extent that is absent or that reaches
    over the whole of both axes does not keep the whole array: the cropped
    axes are the axes without their last element, and the cropped data are
    the rows of the array before the last index of the vertical axis, cut
    before the last index of the horizontal axis; the upper index of each
    slice is the index of the last element and is excluded. *)
Theorem full_extent_drops_last (arr : np.ndarray2) (h v : list Q)
    (xl yl zl : string) (kw : kwargs) (self : Plot2D) :
  increasing h -> increasing v -> covers kw h v ->
  init_attrs arr h v xl yl zl kw = Ok self ->
  h_axis self = take (length h - 1) h /\
  v_axis self = take (length v - 1) v /\
  data self = take (length h - 1) <$> take (length v - 1) arr /\
  length (h_axis self) + 1 = length h /\
  length (v_axis self) + 1 = length v.
Proof.
  intros Hh Hv Hcov Hs.
  destruct (covering_extent_bounds _ _ _ _ _ _ _ _ Hcov Hs)
    as (Hhne & Hvne & _).
  destruct (covering_extent_crop _ _ _ _ _ _ _ _ Hh Hv Hcov Hs)
    as (Eh & Ev & Ed).
  repeat (split; [assumption |]).
  rewrite Eh, Ev, !length_take.
  destruct h; [congruence |]. destruct v; [congruence |]. simpl. lia.
Qed.

Lemma increasing_axis (n : nat) : increasing (axis n).
Proof.
  intros i j x y Hi Hj Hij. unfold axis in Hi, Hj.
  apply list_lookup_fmap_Some in Hi as (a & -> & Ha).
  apply list_lookup_fmap_Some in Hj as (b & -> & Hb).
  apply lookup_seq in Ha as [-> _]. apply lookup_seq in Hb as [-> _].
  rewrite <- Zlt_Qlt. lia.
Qed.

Lemma full_extent_drops_last_witness :
  exists self,
    increasing (axis 8) /\
    covers (with_extent (-1, 100, -5, 7)%Q no_kwargs) (axis 8) (axis 8) /\
    init_attrs (grid 8) (axis 8) (axis 8) "" "" ""
      (with_extent (-1, 100, -5, 7)%Q no_kwargs) = Ok self /\
    h_axis self = take 7 (axis 8) /\ length (h_axis self) + 1 = 8.
Proof.
  assert (Hcov : covers (with_extent (-1, 100, -5, 7)%Q no_kwargs)
                   (axis 8) (axis 8)).
  { unfold covers. cbn [kw_extent with_extent].
    split; repeat constructor; vm_compute; discriminate. }
  eexists.
  match goal with
  | |- _ /\ _ /\ ?i = Ok ?s /\ _ =>
      assert (Hs : i = Ok s) by (vm_compute; reflexivity);
      destruct (full_extent_drops_last _ _ _ _ _ _ _ _
                  (increasing_axis 8) (increasing_axis 8) Hcov Hs)
        as (Hh & _ & _ & Hl & _)
  end.
  split; [apply increasing_axis |]. split; [exact Hcov |].
  split; [exact Hs |]. split; [exact Hh | exact Hl].
Defined.

(** ** Axes that cannot be cropped by default *)

Lemma idx_from_val_first (a : list Q) (x0 v : Q) :
  a !! 0 = Some x0 -> (x0 == v)%Q -> idx_from_val a v = Ok 0.
Proof.
  intros H0 Heq.
  destruct (idx_from_val a v) as [k|e] eqn:E.
  - destruct (idx_from_val_nearest a v k E) as (x & Hx & Hn).
    destruct k as [|k]; [reflexivity | exfalso].
    destruct (Hn 0 x0 H0) as [_ Hlt]. specialize (Hlt ltac:(lia)).
    pose proof (Qabs_nonneg (x - v)) as Hnn.
    assert (Hz : (Qabs (x0 - v) == 0)%Q).
    { rewrite Heq. unfold Qminus. rewrite Qplus_opp_r. reflexivity. }
    rewrite Hz in Hlt. revert Hlt. apply Qle_not_lt, Hnn.
  - apply idx_from_val_Raise in E as ->. discriminate H0.
Qed.

Lemma max_is_first (a : list Q) (x0 mx : Q) :
  a !! 0 = Some x0 -> Forall (fun x => (x <= x0)%Q) a -> np.max a = Ok mx ->
  idx_from_val a mx = Ok 0.
Proof.
  intros H0 Hall Hmx. apply (idx_from_val_first a x0 mx H0).
  apply max_spec in Hmx as [Hin Hle].
  rewrite Forall_forall in Hall, Hle. apply Qle_antisym.
  - apply Hle. eapply list_elem_of_lookup_2, H0.
  - apply Hall. apply list_elem_of_In. exact Hin.
Qed.

(** X8.  When the first element of an axis is its greatest, as in an axis
    of one element or a decreasing axis, and no extent is given, the
    construction raises [ValueError]: the maximum resolves to the index 0,
    the upper end of the slice, so that the crop is empty and [np.amin]
    has nothing to reduce.  This happens before the figure is created,
    whatever matplotlib accepts. *)
Theorem first_is_greatest_raises {mpl : matplotlib} (arr : np.ndarray2)
    (h v : list Q) (xl yl zl : string) (kw : kwargs) :
  kw_extent kw = None ->
  (exists x0, h !! 0 = Some x0 /\ Forall (fun x => (x <= x0)%Q) h) \/
  (exists y0, v !! 0 = Some y0 /\ Forall (fun y => (y <= y0)%Q) v) ->
  __init__ arr h v xl yl zl kw = Raise (ValueError (np.zero_size "minimum")).
Proof.
  intros Hkw Hfirst. apply init_raises, init_attrs_empty_crop.
  intros [[[xmin xmax] ymin] ymax] i0 i1 j0 j1 Hw.
  apply crop_window_Ok in Hw
    as (_ & Hi1 & _ & Hj1 & hmin & hmax & vmin0 & vmax0
        & _ & Hhmax & _ & Hvmax & Hext).
  rewrite Hkw in Hext. injection Hext as -> -> -> ->.
  apply concat_slice2_empty.
  destruct Hfirst as [(x0 & H0 & Hall) | (y0 & H0 & Hall)].
  - right. rewrite (max_is_first h x0 hmax H0 Hall Hhmax) in Hi1.
    injection Hi1 as <-. lia.
  - left. rewrite (max_is_first v y0 vmax0 H0 Hall Hvmax) in Hj1.
    injection Hj1 as <-. lia.
Qed.

Lemma first_is_greatest_raises_witness :
  kw_extent no_kwargs = None /\
  ((exists x0, ints [3; 2; 1; 0]%Z !! 0 = Some x0 /\
               Forall (fun x => (x <= x0)%Q) (ints [3; 2; 1; 0]%Z)) \/
   (exists y0, axis 4 !! 0 = Some y0 /\
               Forall (fun y => (y <= y0)%Q) (axis 4))) /\
  __init__ (mpl := accepting) (grid 4) (ints [3; 2; 1; 0]%Z) (axis 4)
    "" "" "" no_kwargs
  = Raise (ValueError
             "zero-size array to reduction operation minimum which has no identity").
Proof.
  assert (H : exists x0, ints [3; 2; 1; 0]%Z !! 0 = Some x0 /\
                Forall (fun x => (x <= x0)%Q) (ints [3; 2; 1; 0]%Z)).
  { exists 3%Q. split; [reflexivity |].
    repeat constructor; vm_compute; discriminate. }
  split; [reflexivity |]. split; [left; exact H |].
  apply (first_is_greatest_raises (mpl := accepting) (grid 4) (ints [3; 2; 1; 0]%Z) (axis 4)
           "" "" "" no_kwargs eq_refl).
  left. exact H.
Defined.

(** ** The exceptions of the construction *)




(** ** The summary *)

Lemma cropped_axes_nonempty (arr : np.ndarray2) (h v : list Q)
    (xl yl zl : string) (kw : kwargs) (self : Plot2D) :
  init_attrs arr h v xl yl zl kw = Ok self ->
  h_axis self <> [] /\ v_axis self <> [].
Proof.
  intros H. apply init_attrs_Ok in H
    as (i0 & i1 & j0 & j1 & Hw & Hd & Hh & Hv & Hmn & _).
  destruct (extent self) as [[[xmin xmax] ymin] ymax].
  apply crop_window_Ok in Hw as (Hi0 & _ & Hj0 & _).
  apply idx_from_val_lt in Hi0. apply idx_from_val_lt in Hj0.
  assert (Hwin : i0 < i1 /\ j0 < j1).
  { destruct (decide (i0 < i1 /\ j0 < j1)) as [Hok | Hno]; [exact Hok |].
    exfalso. unfold np.amin in Hmn. rewrite Hd in Hmn.
    rewrite concat_slice2_empty in Hmn by lia. discriminate Hmn. }
  split; intros Hnil.
  - apply (f_equal length) in Hnil. rewrite Hh, length_slice in Hnil.
    simpl in Hnil. lia.
  - apply (f_equal length) in Hnil. rewrite Hv, length_slice in Hnil.
    simpl in Hnil. lia.
Qed.

Lemma min_le_max (a : list Q) (mn mx : Q) :
  np.min a = Ok mn -> np.max a = Ok mx -> (mn <= mx)%Q.
Proof.
  intros Hmn Hmx. apply min_spec in Hmn as [Hin _].
  apply max_spec in Hmx as [_ Hle]. rewrite Forall_forall in Hle.
  apply Hle. apply list_elem_of_In. exact Hin.
Qed.

(** X10.  The summary of an object whose attributes are assigned never
    raises.  Its six numbers are a least and a greatest element of the
    cropped horizontal axis, a least and a greatest element of the cropped
    vertical axis, and the stored least and greatest data, whatever [vmin]
    and [vmax] were asked for; each pair is in order. *)
Theorem summary_of_object (arr : np.ndarray2) (h v : list Q)
    (xl yl zl : string) (kw : kwargs) (self : Plot2D) :
  init_attrs arr h v xl yl zl kw = Ok self ->
  exists a b c d,
    __str__ self = Ok (a, b, c, d, min_data self, max_data self) /\
    np.min (h_axis self) = Ok a /\ np.max (h_axis self) = Ok b /\
    np.min (v_axis self) = Ok c /\ np.max (v_axis self) = Ok d /\
    (a <= b)%Q /\ (c <= d)%Q /\ (min_data self <= max_data self)%Q /\
    In (min_data self) (concat (data self)) /\
    In (max_data self) (concat (data self)).
Proof.
  intros Hs. destruct (cropped_axes_nonempty _ _ _ _ _ _ _ _ Hs) as [Hh Hv].
  apply init_attrs_Ok in Hs
    as (i0 & i1 & j0 & j1 & _ & _ & _ & _ & Hmn & Hmx & _).
  destruct (min_Ok _ Hh) as [a Ha]. destruct (max_Ok _ Hh) as [b Hb].
  destruct (min_Ok _ Hv) as [c Hc]. destruct (max_Ok _ Hv) as [d Hd].
  exists a, b, c, d. unfold __str__.
  rewrite Ha, Hb, Hc, Hd, Hmn, Hmx. cbn [mbind result_bind].
  repeat (split; [reflexivity |]).
  split; [exact (min_le_max _ _ _ Ha Hb) |].
  split; [exact (min_le_max _ _ _ Hc Hd) |].
  split; [exact (min_le_max _ _ _ Hmn Hmx) |].
  split; [apply (min_spec _ _ Hmn) | apply (max_spec _ _ Hmx)].
Qed.

Lemma summary_of_object_witness :
  exists self,
    init_attrs (grid 8) (axis 8) (axis 8) "" "" ""
      (with_vrange (Some 5%Q) (Some 6%Q)
         (with_extent (2, 5, 1, 6)%Q no_kwargs)) = Ok self /\
    vmin self = 5%Q /\ vmax self = 6%Q /\
    __str__ self = Ok (2, 4, 1, 5, 10, 44)%Q.
Proof.
  eexists.
  match goal with
  | |- ?i = Ok ?s /\ _ =>
      assert (Hs : i = Ok s) by (vm_compute; reflexivity);
      destruct (summary_of_object _ _ _ _ _ _ _ _ Hs)
        as (a & b & c & d & Hstr & _)
  end.
  split; [exact Hs |]. split; [reflexivity |]. split; [reflexivity |].
  vm_compute in Hstr. injection Hstr as <- <- <- <-. reflexivity.
Defined.

Lemma below_last (a : list Q) (x hi : Q) :
  increasing a -> Forall (fun y => (y <= hi)%Q) a ->
  In x (take (length a - 1) a) -> (x < hi)%Q.
Proof.
  intros Hinc Hall Hin. apply list_elem_of_In, list_elem_of_lookup in Hin as [k Hk].
  apply lookup_take_Some in Hk as [Hk Hlt].
  assert (Hl : is_Some (a !! (length a - 1)))
    by (apply lookup_lt_is_Some_2; lia).
  destruct Hl as [xl Hl].
  eapply Qlt_le_trans; [exact (Hinc k (length a - 1) x xl Hk Hl Hlt) |].
  rewrite Forall_forall in Hall. apply Hall.
  eapply list_elem_of_lookup_2, Hl.
Qed.

Lemma In_take {A : Type} (n : nat) (a : list A) (x : A) :
  In x (take n a) -> In x a.
Proof.
  intros H. apply list_elem_of_In. apply list_elem_of_In in H.
  apply list_elem_of_lookup in H as [k Hk].
  apply lookup_take_Some in Hk as [Hk _]. eapply list_elem_of_lookup_2, Hk.
Qed.

(** X11.  With increasing axes and an extent that is absent or reaches
    over the whole of both axes, the range that the summary reports under
    the name [extent] is not the extent of the object: its upper bounds are
    strictly below the upper bounds of [self.extent], which is what
    [imshow] draws the data over, while its lower bounds are not below the
    lower ones. *)
Theorem summary_range_below_extent (arr : np.ndarray2) (h v : list Q)
    (xl yl zl : string) (kw : kwargs) (self : Plot2D)
    (a b c d mn mx : Q) :
  increasing h -> increasing v -> covers kw h v ->
  init_attrs arr h v xl yl zl kw = Ok self ->
  __str__ self = Ok (a, b, c, d, mn, mx) ->
  ((extent self).1.1.1 <= a)%Q /\ (b < (extent self).1.1.2)%Q /\
  ((extent self).1.2 <= c)%Q /\ (d < (extent self).2)%Q.
Proof.
  intros Hh Hv Hcov Hs Hstr.
  destruct (covering_extent_bounds _ _ _ _ _ _ _ _ Hcov Hs)
    as (_ & _ & Hallh & Hallv).
  destruct (covering_extent_crop _ _ _ _ _ _ _ _ Hh Hv Hcov Hs)
    as (Eh & Ev & _).
  unfold __str__ in Hstr.
  ok_step Hstr a' Ea. ok_step Hstr b' Eb. ok_step Hstr c' Ec.
  ok_step Hstr d' Ed. ok_step Hstr mn' Emn. ok_step Hstr mx' Emx.
  injection Hstr as -> -> -> -> -> ->.
  rewrite Eh in Ea, Eb. rewrite Ev in Ec, Ed.
  apply min_spec in Ea as [Ha _]. apply max_spec in Eb as [Hb _].
  apply min_spec in Ec as [Hc _]. apply max_spec in Ed as [Hd _].
  rewrite Forall_forall in Hallh, Hallv.
  split; [| split; [| split]].
  - apply Hallh. apply list_elem_of_In. eapply In_take, Ha.
  - apply (below_last h b _ Hh); [| exact Hb].
    apply Forall_forall. intros x Hx. apply (Hallh x Hx).
  - apply Hallv. apply list_elem_of_In. eapply In_take, Hc.
  - apply (below_last v d _ Hv); [| exact Hd].
    apply Forall_forall. intros y Hy. apply (Hallv y Hy).
Qed.

Lemma summary_range_below_extent_witness :
  exists self,
    init_attrs (grid 8) (axis 8) (axis 8) "" "" "" no_kwargs = Ok self /\
    __str__ self = Ok (0, 6, 0, 6, 0, 54)%Q /\
    extent self = (0, 7, 0, 7)%Q /\
    ((extent self).1.1.1 <= 0)%Q /\ (6 < (extent self).1.1.2)%Q /\
    ((extent self).1.2 <= 0)%Q /\ (6 < (extent self).2)%Q.
Proof.
  eexists.
  match goal with
  | |- ?i = Ok ?s /\ _ =>
      assert (Hs : i = Ok s) by (vm_compute; reflexivity);
      assert (Hstr : __str__ s = Ok (0, 6, 0, 6, 0, 54)%Q)
        by (vm_compute; reflexivity)
  end.
  split; [exact Hs |]. split; [exact Hstr |]. split; [reflexivity |].
  exact (summary_range_below_extent (grid 8) (axis 8) (axis 8) "" "" ""
           no_kwargs _ _ _ _ _ _ _
           (increasing_axis 8) (increasing_axis 8)
           (I : covers no_kwargs (axis 8) (axis 8)) Hs Hstr).
Defined.

(** ** Slice options *)

Lemma update_merged (user : option (gmap string pyval)) :
  merged user (update slice_opts (get user ∅)).
Proof.
  intros k. unfold update. rewrite lookup_union.
  destruct (get user ∅ !! k), (slice_opts !! k); reflexivity.
Qed.

(** X12.  In a figure that [draw_fig] returns, each slice line and each
    slice curve carries, for every key, the value that the options of its
    own slice give to the key, and the default (["-"] for [ls],
    ["firebrick"] for [color], 0.5 for [lw], nothing for another key) when
    they give none; the options of one slice never reach the other. *)
Theorem slice_options_reach_artists {mpl : matplotlib} (self : Plot2D) (kw : kwargs)
    (fig : Figure) :
  draw_fig self kw = Ok fig ->
  slice_opts !! "ls" = Some (Str "-") /\
  slice_opts !! "color" = Some (Str "firebrick") /\
  slice_opts !! "lw" = Some (Num (1 # 2)) /\
  (forall k, k <> "ls" -> k <> "color" -> k <> "lw" -> slice_opts !! k = None) /\
  Forall (with_options (kw_hslice_opts kw) (kw_vslice_opts kw))
    (artists (ax0 fig)) /\
  (forall ah, axh fig = Some ah ->
     Forall (curve_with_options (kw_hslice_opts kw)) (artists ah)) /\
  (forall av, axv fig = Some av ->
     Forall (curve_with_options (kw_vslice_opts kw)) (artists av)).
Proof.
  intros Hf. split; [reflexivity |]. split; [reflexivity |].
  split; [reflexivity |]. split.
  { intros k H1 H2 H3. unfold slice_opts.
    rewrite !lookup_insert_ne by congruence. apply lookup_empty. }
  draw_cases Hf;
    match goal with
    | |- context [the_figure ?s (?g, ?i, ?a0, ?ah, ?av, ?ws, ?hs)] =>
        destruct (finish_proj s g i a0 ah av ws hs)
          as (_ & _ & Hah & Hav & _ & _ & _ & _ & _ & _ & tl & Harts & Htl)
    end;
    rewrite Harts, Hah, Hav; cbn [artists main_axes].
  all: split;
    [ apply Forall_app; split;
      [ repeat constructor; simpl; auto using update_merged
      | eapply Forall_impl; [exact Htl |];
        intros a (? & ? & ? & ? & ->); exact I ] |].
  all: split; intros ? [= <-]; repeat constructor; apply update_merged.
Qed.

Lemma slice_options_reach_artists_witness :
  exists self fig,
    init_attrs (grid 44) (axis 44) (axis 44) "" "" ""
      (with_slice_opts None (Some blue_opts) both_slices) = Ok self /\
    draw_fig (mpl := accepting) self (with_slice_opts None (Some blue_opts) both_slices) = Ok fig /\
    Forall (with_options None (Some blue_opts)) (artists (ax0 fig)).
Proof.
  eexists _, _. split; [vm_compute; reflexivity |].
  match goal with
  | |- draw_fig ?s ?k = Ok ?f /\ _ =>
      assert (Hd : draw_fig (mpl := accepting) s k = Ok f) by (vm_compute; reflexivity);
      destruct (slice_options_reach_artists (mpl := accepting) s k f Hd)
        as (_ & _ & _ & _ & Hall & _)
  end.
  split; [exact Hd | exact Hall].
Defined.

(** ** An extent on elements of the axes *)

Lemma idx_from_val_exact (a : list Q) (k : nat) (x : Q) :
  increasing a -> a !! k = Some x -> idx_from_val a x = Ok k.
Proof.
  intros Hinc Hk.
  destruct (idx_from_val a x) as [k'|e] eqn:E.
  - destruct (idx_from_val_nearest a x k' E) as (x' & Hx' & Hn).
    destruct (Hn k x Hk) as [Hle _].
    assert (Hz : (Qabs (x - x) == 0)%Q).
    { unfold Qminus. rewrite Qplus_opp_r. reflexivity. }
    rewrite Hz in Hle.
    assert (Heq : (x' == x)%Q).
    { pose proof (Qabs_nonneg (x' - x)) as Hnn.
      assert (Hzero : (Qabs (x' - x) == 0)%Q) by (apply Qle_antisym; assumption).
      destruct (Qlt_le_dec (x' - x) 0) as [Hneg | Hpos].
      - rewrite Qabs_neg in Hzero by lra. lra.
      - rewrite Qabs_pos in Hzero by lra. lra. }
    f_equal. destruct (lt_eq_lt_dec k' k) as [[Hlt | ->] | Hgt];
      [exfalso | reflexivity | exfalso].
    + pose proof (Hinc k' k x' x Hx' Hk Hlt). lra.
    + pose proof (Hinc k k' x x' Hk Hx' Hgt). lra.
  - apply idx_from_val_Raise in E as ->. discriminate Hk.
Qed.

(** X13.  With increasing axes and an extent whose four bounds are elements
    of the axes, at the indices [i0], [i1] of the horizontal and [j0], [j1]
    of the vertical axis, the crop is the half-open window of these
    indices: the cropped axes begin with the lower bounds, and the upper
    bounds, though requested, are not among their elements. *)
Theorem extent_on_elements (arr : np.ndarray2) (h v : list Q)
    (xl yl zl : string) (kw : kwargs) (self : Plot2D)
    (xmin xmax ymin ymax : Q) (i0 i1 j0 j1 : nat) :
  increasing h -> increasing v ->
  kw_extent kw = Some (xmin, xmax, ymin, ymax) ->
  h !! i0 = Some xmin -> h !! i1 = Some xmax ->
  v !! j0 = Some ymin -> v !! j1 = Some ymax ->
  init_attrs arr h v xl yl zl kw = Ok self ->
  h_axis self = np.slice i0 i1 h /\
  v_axis self = np.slice j0 j1 v /\
  data self = np.slice2 j0 j1 i0 i1 arr /\
  h_axis self !! 0 = Some xmin /\ v_axis self !! 0 = Some ymin /\
  ~ In xmax (h_axis self) /\ ~ In ymax (v_axis self).
Proof.
  intros Hh Hv Hkw Hi0 Hi1 Hj0 Hj1 Hs.
  destruct (cropped_axes_nonempty _ _ _ _ _ _ _ _ Hs) as [Hhne Hvne].
  apply init_attrs_Ok in Hs
    as (i0' & i1' & j0' & j1' & Hw & Hd & Hha & Hva & _).
  destruct (extent self) as [[[xmin' xmax'] ymin'] ymax'].
  apply crop_window_Ok in Hw
    as (Ei0 & Ei1 & Ej0 & Ej1 & hmin & hmax & vmin0 & vmax0
        & _ & _ & _ & _ & Hext).
  rewrite Hkw in Hext. simpl in Hext. injection Hext as -> -> -> ->.
  rewrite (idx_from_val_exact h i0 xmin Hh Hi0) in Ei0.
  rewrite (idx_from_val_exact h i1 xmax Hh Hi1) in Ei1.
  rewrite (idx_from_val_exact v j0 ymin Hv Hj0) in Ej0.
  rewrite (idx_from_val_exact v j1 ymax Hv Hj1) in Ej1.
  injection Ei0 as <-. injection Ei1 as <-.
  injection Ej0 as <-. injection Ej1 as <-.
  rewrite Hha in Hhne |- *. rewrite Hva in Hvne |- *.
  assert (Hwh : i0 < i1).
  { destruct (decide (i0 < i1)) as [H | H]; [exact H |].
    rewrite slice_empty in Hhne by lia. congruence. }
  assert (Hwv : j0 < j1).
  { destruct (decide (j0 < j1)) as [H | H]; [exact H |].
    rewrite slice_empty in Hvne by lia. congruence. }
  assert (Hnot : forall (a : list Q) (k0 k1 : nat) (top : Q),
            increasing a -> a !! k1 = Some top -> ~ In top (np.slice k0 k1 a)).
  { intros a k0 k1 top Hinc Htop Hin.
    apply list_elem_of_In, list_elem_of_lookup in Hin as [k Hk].
    unfold np.slice in Hk. apply lookup_take_Some in Hk as [Hk Hlt].
    rewrite lookup_drop in Hk.
    pose proof (Hinc (k0 + k) k1 top top Hk Htop ltac:(lia)) as Hirr.
    exact (Qlt_irrefl _ Hirr). }
  split; [reflexivity |]. split; [reflexivity |]. split; [exact Hd |].
  split; [| split; [| split]].
  - unfold np.slice. rewrite lookup_take_lt by lia.
    rewrite lookup_drop, Nat.add_0_r. exact Hi0.
  - unfold np.slice. rewrite lookup_take_lt by lia.
    rewrite lookup_drop, Nat.add_0_r. exact Hj0.
  - exact (Hnot h i0 i1 xmax Hh Hi1).
  - exact (Hnot v j0 j1 ymax Hv Hj1).
Qed.

Lemma extent_on_elements_witness :
  exists self,
    init_attrs (grid 8) (axis 8) (axis 8) "" "" ""
      (with_extent (2, 5, 1, 6)%Q no_kwargs) = Ok self /\
    h_axis self = ints [2; 3; 4]%Z /\
    v_axis self = ints [1; 2; 3; 4; 5]%Z /\
    ~ In 5%Q (h_axis self) /\ ~ In 6%Q (v_axis self).
Proof.
  eexists.
  match goal with
  | |- ?i = Ok ?s /\ _ =>
      assert (Hs : i = Ok s) by (vm_compute; reflexivity);
      destruct (extent_on_elements (grid 8) (axis 8) (axis 8) "" "" ""
                  (with_extent (2, 5, 1, 6)%Q no_kwargs) s
                  2%Q 5%Q 1%Q 6%Q 2 5 1 6
                  (increasing_axis 8) (increasing_axis 8)
                  eq_refl eq_refl eq_refl eq_refl eq_refl Hs)
        as (_ & _ & _ & _ & _ & Hx & Hy)
  end.
  split; [exact Hs |]. split; [reflexivity |]. split; [reflexivity |].
  split; [exact Hx | exact Hy].
Defined.

(** ** Where the reference lines are *)

(** X14.  In the figure of a constructed object with a horizontal slice
    requested at [y0], the reference line of the main panel is at an element
    of the cropped vertical axis than which no element is nearer to [y0];
    and with a vertical slice requested at [x0], the vertical reference
    line is at an element of the cropped horizontal axis than which none is
    nearer to [x0]. *)
Theorem reference_lines_nearest {mpl : matplotlib} (arr : np.ndarray2) (h v : list Q)
    (xl yl zl : string) (kw : kwargs) (self : Plot2D) (fig : Figure) :
  __init__ arr h v xl yl zl kw = Ok (self, fig) ->
  (forall y0, kw_hslice_val kw = Some y0 ->
     exists y o,
       In (axhline y o) (artists (ax0 fig)) /\ In y (v_axis self) /\
       Forall (fun y' => (Qabs (y - y0) <= Qabs (y' - y0))%Q) (v_axis self)) /\
  (forall x0, kw_vslice_val kw = Some x0 ->
     exists x o,
       In (axvline x o) (artists (ax0 fig)) /\ In x (h_axis self) /\
       Forall (fun x' => (Qabs (x - x0) <= Qabs (x' - x0))%Q) (h_axis self)).
Proof.
  intros H. apply init_Ok in H as [Hs Hf].
  apply init_attrs_Ok in Hs
    as (i0 & i1 & j0 & j1 & _ & _ & _ & _ & _ & _ & _ & _ & Hsh & Hsv & _).
  split.
  - intros y0 Hy0. clear Hsv. rewrite Hy0 in Hsh.
    apply slice_idx_nearest in Hsh as (i & y' & _ & Hidx & Hy' & Hn).
    draw_cases Hf; try discriminate Hidx; injection Hidx as ->;
      rewrite Hy in Hy'; injection Hy' as <-;
      match goal with
      | |- context [the_figure ?s (?g, ?im, ?a0, ?ah, ?av, ?ws, ?hs)] =>
          destruct (finish_proj s g im a0 ah av ws hs)
            as (_ & _ & _ & _ & _ & _ & _ & _ & _ & _ & tl & Harts & _)
      end;
      eexists y, _; rewrite Harts;
      (split; [apply in_or_app; left; simpl; left; reflexivity |]);
      (split; [apply list_elem_of_In; eapply list_elem_of_lookup_2, Hy |]);
      apply Forall_forall; intros y1 Hy1;
      apply list_elem_of_lookup in Hy1 as [k Hk];
      exact (proj1 (Hn k y1 Hk)).
  - intros x0 Hx0. clear Hsh. rewrite Hx0 in Hsv.
    apply slice_idx_nearest in Hsv as (j & x' & _ & Hidx & Hx' & Hn).
    draw_cases Hf; try discriminate Hidx; injection Hidx as ->;
      rewrite Hx in Hx'; injection Hx' as <-;
      match goal with
      | |- context [the_figure ?s (?g, ?im, ?a0, ?ah, ?av, ?ws, ?hs)] =>
          destruct (finish_proj s g im a0 ah av ws hs)
            as (_ & _ & _ & _ & _ & _ & _ & _ & _ & _ & tl & Harts & _)
      end;
      eexists x, _; rewrite Harts;
      (split; [apply in_or_app; left; simpl; tauto |]);
      (split; [apply list_elem_of_In; eapply list_elem_of_lookup_2, Hx |]);
      apply Forall_forall; intros x1 Hx1;
      apply list_elem_of_lookup in Hx1 as [k Hk];
      exact (proj1 (Hn k x1 Hk)).
Qed.

Lemma reference_lines_nearest_witness :
  exists self fig y o,
    __init__ (mpl := accepting) (grid 8) (axis 8) (axis 8) "" "" ""
      (with_hslice_val (5 # 2) no_kwargs) = Ok (self, fig) /\
    kw_hslice_val (with_hslice_val (5 # 2) no_kwargs) = Some (5 # 2)%Q /\
    In (axhline y o) (artists (ax0 fig)) /\ In y (v_axis self) /\
    Forall (fun y' => (Qabs (y - (5 # 2)) <= Qabs (y' - (5 # 2)))%Q)
      (v_axis self).
Proof.
  eexists _, _.
  match goal with
  | |- exists y o, ?i = Ok (?s, ?f) /\ _ =>
      assert (H : i = Ok (s, f)) by (vm_compute; reflexivity);
      destruct (reference_lines_nearest (mpl := accepting) _ _ _ _ _ _ _ _ _ H) as [Hh _];
      destruct (Hh (5 # 2)%Q eq_refl) as (y & o & Hin & Hy & Hall)
  end.
  exists y, o. split; [exact H |]. split; [reflexivity |]. auto.
Defined.
